(** * BRVM portfolio manager: order validation and ledger (src/app.py)

    A shallow embedding of [BRVMPortfolioManager] from [src/app.py]: the
    pure helpers [calculate_price_limits], [calculate_commission] and
    [is_trading_time], and the stateful [execute_order], which reads and
    mutates [st.session_state]; and of the portfolio value that the sidebar
    of [main] computes from that state.

    Conventions of the embedding.
    - Python [int] values that stay integers (quantities, volumes, listed
      prices, day counts) are [Z].  Values that flow through float
      arithmetic (order prices, commissions, cash, average prices) are
      embedded twice.  The first embedding takes them as exact rationals
      [Q]: the float literals 0.075, 0.006 and 0.1 are the rationals they
      denote, and equalities are stated with [==] (Qeq); it carries the
      properties of the control flow, of the portfolio and of the log.
      Module [Py] takes them as Python has them, [int] or binary64 [float]
      with every operation rounded; the statements that equate, for every
      order, the cash balance or the recorded total with the result of an
      arithmetic expression are made there.
    - [st.session_state] is the record [session_state], threaded explicitly
      through [execute_order]; dictionaries are [gmap string _].
    - [datetime.now()] is an input: [now n] is the value of the n-th call
      made while one order is processed.
    - The strings returned next to the success flag are the constructors of
      [message]; their arguments are the values the f-strings interpolate.
    - The [ZeroDivisionError] that [/] raises is the result [Raise], with
      the state as mutated up to the raising statement. *)

From Stdlib Require Import ZArith QArith Lqa Lia Bool String Ascii List.
From Stdlib Require Import SpecFloat.
From stdpp Require Import gmap strings list fin_maps.

Local Open Scope Z_scope.
Local Open Scope string_scope.

(** ** Data model *)

(** One entry of [self.market_data]:
    [{'price': .., 'change': .., 'volume': .., 'sector': ..}]. *)
Record instrument := Instrument {
  md_price : Z;
  md_change : Q;
  md_volume : Z;
  md_sector : string
}.

(** [self.brvm_rules]. ['trading_hours'] is the pair of strings
    [trading_open]/[trading_close]; ['price_limits']['static'] is
    [price_limits_static]. *)
Record rules := Rules {
  trading_open : string;
  trading_close : string;
  settlement_days : Z;
  min_lot_size : Z;
  price_limits_static : Q;
  commission_rate : Q;
  min_commission : Q;
  trading_days : list string
}.

(** The attributes of [self] that the methods read. *)
Record manager := Manager {
  market_data : gmap string instrument;
  brvm_rules : rules
}.

(** A [datetime]: the proleptic Gregorian ordinal of its date (day 1 is
    Monday, 1 January of year 1, as [date.toordinal]) and its time of day. *)
Record datetime := Datetime {
  dt_ordinal : Z;
  dt_hour : Z;
  dt_minute : Z;
  dt_second : Z
}.

(** A value of [st.session_state.portfolio]:
    [{'quantity': .., 'avg_price': .., 'sector': ..}]. *)
Record position := Position {
  pos_quantity : Z;
  pos_avg_price : Q;
  pos_sector : string
}.

(** An element of [st.session_state.transactions].  The two dates are kept
    as [datetime] values rather than as their [isoformat()] strings. *)
Record transaction := Transaction {
  tx_timestamp : datetime;
  tx_symbol : string;
  tx_type : string;
  tx_quantity : Z;
  tx_price : Q;
  tx_commission : Q;
  tx_total : Q;
  tx_settlement_date : datetime
}.

(** [st.session_state] ([pending_orders] is initialised to the empty list
    and never read or written again, so it carries no data here). *)
Record session_state := SessionState {
  portfolio : gmap string position;
  transactions : list transaction;
  cash_balance : Q;
  pending_orders : list unit
}.

(** The second component of the tuples returned by [execute_order]:
    - [SymboleNonTrouve]: "Symbole non trouvé" (unknown instrument);
    - [PrixHorsLimites lo hi]: "Prix hors limites (lo - hi FCFA)"
      (price out of band);
    - [LiquiditesInsuffisantes]: "Liquidités insuffisantes"
      (insufficient funds);
    - [QuantiteTropImportante]: "Quantité trop importante par rapport à la
      liquidité" (liquidity exceeded);
    - [ActionsInsuffisantes]: "Actions insuffisantes en portefeuille"
      (insufficient holdings);
    - [AchatExecute q s p c]: "Achat exécuté: q s à p FCFA (Commission: c
      FCFA)";
    - [VenteExecutee q s p c]: "Vente exécutée: ...". *)
Inductive message :=
| SymboleNonTrouve
| PrixHorsLimites (lower_limit upper_limit : Q)
| LiquiditesInsuffisantes
| QuantiteTropImportante
| ActionsInsuffisantes
| AchatExecute (q : Z) (symbol : string) (order_price commission : Q)
| VenteExecutee (q : Z) (symbol : string) (order_price commission : Q).

Inductive exception := ZeroDivisionError.

(** What a call of [execute_order] produces: a tuple [(ok, msg)], [None]
    (the function falls off its end when [order_type] is neither ['BUY']
    nor ['SELL']), or a raised exception. *)
Inductive result :=
| Return (ok : bool) (msg : message)
| ReturnNone
| Raise (e : exception).

(** ** Python primitives *)

(** [a < b] on numbers. *)
Definition Qlt_bool (a b : Q) : bool := negb (Qle_bool b a).

(** [max(a, b)]: the first argument unless the second is strictly larger. *)
Definition py_max (a b : Q) : Q := if Qlt_bool a b then b else a.

(** [price if price else current_price]: [None] and zero are falsy. *)
Definition price_or (price : option Q) (current_price : Q) : Q :=
  match price with
  | Some p => if Qeq_bool p 0 then current_price else p
  | None => current_price
  end.

(** [d + timedelta(days=n)]. *)
Definition add_days (d : datetime) (n : Z) : datetime :=
  {| dt_ordinal := dt_ordinal d + n; dt_hour := dt_hour d;
     dt_minute := dt_minute d; dt_second := dt_second d |}.

Definition day_names : list string :=
  ["Monday"; "Tuesday"; "Wednesday"; "Thursday"; "Friday"; "Saturday"; "Sunday"].

(** [now.strftime('%A')]: [date.weekday()] is [(toordinal() + 6) % 7] with
    Monday as 0. *)
Definition strftime_A (d : datetime) : string :=
  nth (Z.to_nat ((dt_ordinal d + 6) mod 7)) day_names "".

Definition digit (n : Z) : ascii := ascii_of_nat (48 + Z.to_nat (n mod 10)).

Definition two_digits (n : Z) : string :=
  String (digit (n / 10)) (String (digit n) EmptyString).

(** [now.strftime('%H:%M')]. *)
Definition strftime_HM (d : datetime) : string :=
  two_digits (dt_hour d) ++ ":" ++ two_digits (dt_minute d).

(** [x in l] for a list of strings. *)
Definition str_in (x : string) (l : list string) : bool :=
  existsb (String.eqb x) l.

(** ** [BRVMPortfolioManager] *)

(** The dictionary built by [load_market_data]. *)
Definition brvm_market_data : gmap string instrument :=
  list_to_map [
    ("BICC", Instrument 8500 (25 # 10) 15000 "Construction");
    ("BOAB", Instrument 4200 (- 12 # 10) 8500 "Banque");
    ("BOABF", Instrument 4150 (8 # 10) 12000 "Banque");
    ("BOAC", Instrument 3950 (15 # 10) 9500 "Banque");
    ("BOCIG", Instrument 6200 (- 5 # 10) 7200 "Assurance");
    ("CFAC", Instrument 850 (32 # 10) 25000 "Automobile");
    ("CGBC", Instrument 1250 (- 21 # 10) 18000 "Commerce");
    ("EIBC", Instrument 5800 (18 # 10) 11000 "Industrie");
    ("ETIT", Instrument 18 (45 # 10) 45000 "Telecom");
    ("NEIC", Instrument 4950 (- 18 # 10) 6800 "Assurance");
    ("NTLC", Instrument 950 (22 # 10) 32000 "Textile");
    ("ORAC", Instrument 2800 (5 # 10) 14500 "Mining");
    ("PALC", Instrument 2950 (- 31 # 10) 8900 "Agro");
    ("PRSC", Instrument 350 (19 # 10) 55000 "Distribution");
    ("SAFC", Instrument 2450 (- 8 # 10) 16700 "Agro");
    ("SGBC", Instrument 11500 (28 # 10) 5400 "Banque");
    ("SHEC", Instrument 2750 (11 # 10) 19800 "Energie");
    ("SIBC", Instrument 4800 (- 25 # 10) 7650 "Banque");
    ("SICC", Instrument 1850 (9 # 10) 28500 "Ciment");
    ("SLBC", Instrument 1950 (14 # 10) 13200 "Banque");
    ("SMBC", Instrument 8200 (- 16 # 10) 4200 "Banque");
    ("SNTS", Instrument 4650 (21 # 10) 9800 "Transport");
    ("SOGC", Instrument 4950 (7 # 10) 15600 "Commerce");
    ("STAC", Instrument 650 (- 19 # 10) 38000 "Agro");
    ("STBC", Instrument 950 (35 # 10) 24500 "Banque");
    ("TTLC", Instrument 350 (12 # 10) 65000 "Textile");
    ("UNLC", Instrument 2850 (- 3 # 10) 11900 "Logistique")
  ].

(** The rule dictionary built by [load_market_data]. *)
Definition brvm_rules_data : rules :=
  {| trading_open := "08:00";
     trading_close := "15:30";
     settlement_days := 3;
     min_lot_size := 1;
     price_limits_static := 75 # 1000;
     commission_rate := 6 # 1000;
     min_commission := 5000 # 1;
     trading_days := ["Monday"; "Tuesday"; "Wednesday"; "Thursday"; "Friday"] |}.

(** [self] after [__init__]. *)
Definition load_market_data : manager :=
  {| market_data := brvm_market_data; brvm_rules := brvm_rules_data |}.

(** [st.session_state] after [initialize_session_state] on a fresh
    session. *)
Definition initialize_session_state : session_state :=
  {| portfolio := ∅; transactions := []; cash_balance := 1000000 # 1;
     pending_orders := [] |}.

(** [calculate_price_limits]: returns [(lower_limit, upper_limit)]. *)
Definition calculate_price_limits (self : manager) (reference_price : Q) : Q * Q :=
  let limit_pct := price_limits_static (brvm_rules self) in
  let upper_limit := (reference_price * (1 + limit_pct))%Q in
  let lower_limit := (reference_price * (1 - limit_pct))%Q in
  (lower_limit, upper_limit).

(** [calculate_commission]. *)
Definition calculate_commission (self : manager) (amount : Q) : Q :=
  py_max (amount * commission_rate (brvm_rules self))%Q
         (min_commission (brvm_rules self)).

(** The messages of [is_trading_time]. *)
Inductive market_status :=
| MarcheFermeWeekend
| MarchePasEncoreOuvert (open : string)
| MarcheFerme (close : string)
| MarcheOuvert.

(** [is_trading_time], with [datetime.now()] as the argument [now].  The
    times of day are compared as strings, as in the source. *)
Definition is_trading_time (self : manager) (now : datetime) : bool * market_status :=
  if negb (str_in (strftime_A now) (trading_days (brvm_rules self))) then
    (false, MarcheFermeWeekend)
  else
    let current_time := strftime_HM now in
    if String.ltb current_time (trading_open (brvm_rules self)) then
      (false, MarchePasEncoreOuvert (trading_open (brvm_rules self)))
    else if String.ltb (trading_close (brvm_rules self)) current_time then
      (false, MarcheFerme (trading_close (brvm_rules self)))
    else
      (true, MarcheOuvert).

(** Assignments to the attributes of [st.session_state]. *)
Definition set_cash_balance (c : Q) (st : session_state) : session_state :=
  {| portfolio := portfolio st; transactions := transactions st;
     cash_balance := c; pending_orders := pending_orders st |}.

Definition set_portfolio (p : gmap string position) (st : session_state) : session_state :=
  {| portfolio := p; transactions := transactions st;
     cash_balance := cash_balance st; pending_orders := pending_orders st |}.

(** [st.session_state.transactions.append(transaction)]. *)
Definition append_transaction (t : transaction) (st : session_state) : session_state :=
  {| portfolio := portfolio st; transactions := transactions st ++ [t];
     cash_balance := cash_balance st; pending_orders := pending_orders st |}.

(** The position update of the BUY branch (the [if symbol in
    st.session_state.portfolio: ... else: ...] statement).  The first
    component is the exception raised, if any; the state is the one reached
    when the statement ends or raises. *)
Definition buy_upsert (data : instrument) (symbol : string) (quantity : Z)
    (order_price : Q) (st : session_state) : option exception * session_state :=
  match portfolio st !! symbol with
  | Some pos =>
      (* portfolio[symbol]['quantity'] += quantity *)
      let pos := {| pos_quantity := pos_quantity pos + quantity;
                    pos_avg_price := pos_avg_price pos;
                    pos_sector := pos_sector pos |} in
      let st := set_portfolio (<[symbol := pos]> (portfolio st)) st in
      let old_value :=
        (pos_avg_price pos * inject_Z (pos_quantity pos)
         - inject_Z quantity * order_price)%Q in
      let new_quantity := pos_quantity pos in
      if (new_quantity =? 0)%Z then (Some ZeroDivisionError, st)
      else
        let pos := {| pos_quantity := pos_quantity pos;
                      pos_avg_price :=
                        ((old_value + inject_Z quantity * order_price)
                         / inject_Z new_quantity)%Q;
                      pos_sector := pos_sector pos |} in
        (None, set_portfolio (<[symbol := pos]> (portfolio st)) st)
  | None =>
      let pos := {| pos_quantity := quantity;
                    pos_avg_price := order_price;
                    pos_sector := md_sector data |} in
      (None, set_portfolio (<[symbol := pos]> (portfolio st)) st)
  end.

(** The position update of the SELL branch: the decrement of
    ['quantity'] and the [del] when it reaches 0. *)
Definition sell_update (symbol : string) (quantity : Z) (pos : position)
    (st : session_state) : session_state :=
  let pos := {| pos_quantity := pos_quantity pos - quantity;
                pos_avg_price := pos_avg_price pos;
                pos_sector := pos_sector pos |} in
  let st := set_portfolio (<[symbol := pos]> (portfolio st)) st in
  if (pos_quantity pos =? 0)%Z then set_portfolio (delete symbol (portfolio st)) st
  else st.

(** [execute_order(self, symbol, order_type, quantity, price=None)]. *)
Definition execute_order (self : manager) (now : nat -> datetime)
    (symbol order_type : string) (quantity : Z) (price : option Q)
    (st : session_state) : result * session_state :=
  match market_data self !! symbol with
  | None => (Return false SymboleNonTrouve, st)
  | Some data =>
    let current_price := inject_Z (md_price data) in
    let order_price := price_or price current_price in
    let '(lower_limit, upper_limit) := calculate_price_limits self current_price in
    if Qlt_bool order_price lower_limit || Qlt_bool upper_limit order_price then
      (Return false (PrixHorsLimites lower_limit upper_limit), st)
    else
      let total_amount := (inject_Z quantity * order_price)%Q in
      let commission := calculate_commission self total_amount in
      if String.eqb order_type "BUY" then
        let total_cost := (total_amount + commission)%Q in
        if Qlt_bool (cash_balance st) total_cost then
          (Return false LiquiditesInsuffisantes, st)
        else if Qlt_bool (inject_Z (md_volume data) * (1 # 10))%Q (inject_Z quantity) then
          (Return false QuantiteTropImportante, st)
        else
          let st := set_cash_balance (cash_balance st - total_cost)%Q st in
          match buy_upsert data symbol quantity order_price st with
          | (Some e, st) => (Raise e, st)
          | (None, st) =>
            let transaction :=
              {| tx_timestamp := now 0%nat;
                 tx_symbol := symbol;
                 tx_type := "BUY";
                 tx_quantity := quantity;
                 tx_price := order_price;
                 tx_commission := commission;
                 tx_total := total_cost;
                 tx_settlement_date :=
                   add_days (now 1%nat) (settlement_days (brvm_rules self)) |} in
            (Return true (AchatExecute quantity symbol order_price commission),
             append_transaction transaction st)
          end
      else if String.eqb order_type "SELL" then
        match portfolio st !! symbol with
        | None => (Return false ActionsInsuffisantes, st)
        | Some pos =>
          if (pos_quantity pos <? quantity)%Z then
            (Return false ActionsInsuffisantes, st)
          else
            let total_received := (total_amount - commission)%Q in
            let st := set_cash_balance (cash_balance st + total_received)%Q st in
            let st := sell_update symbol quantity pos st in
            let transaction :=
              {| tx_timestamp := now 0%nat;
                 tx_symbol := symbol;
                 tx_type := "SELL";
                 tx_quantity := quantity;
                 tx_price := order_price;
                 tx_commission := commission;
                 tx_total := total_received;
                 tx_settlement_date :=
                   add_days (now 1%nat) (settlement_days (brvm_rules self)) |} in
            (Return true (VenteExecutee quantity symbol order_price commission),
             append_transaction transaction st)
        end
      else (ReturnNone, st)
  end.

(** An order is accepted when [execute_order] returns [(True, _)] and
    rejected when it returns [(False, _)]. *)
Definition accepted (r : result) : bool :=
  match r with Return true _ => true | _ => false end.

Definition rejected (r : result) : bool :=
  match r with Return false _ => true | _ => false end.

(** A clock that always shows [d]. *)
Definition frozen (d : datetime) : nat -> datetime := fun _ => d.

(** Wednesday 4 November 2026, 10:15:00. *)
Definition wednesday_morning : datetime :=
  {| dt_ordinal := 739924; dt_hour := 10; dt_minute := 15; dt_second := 0 |}.

(** Sunday 8 November 2026, 21:40:00. *)
Definition sunday_evening : datetime :=
  {| dt_ordinal := 739928; dt_hour := 21; dt_minute := 40; dt_second := 0 |}.


(** The session after Scenario A: 10 BICC held, 910000 in cash. *)
Definition after_scenario_A : session_state :=
  snd (execute_order load_market_data (frozen wednesday_morning)
         "BICC" "BUY" 10 None initialize_session_state).



(** The portfolio value shown in the sidebar of [main]:

      portfolio_value = 0
      for symbol, holding in st.session_state.portfolio.items():
          current_price = portfolio_manager.market_data[symbol]['price']
          portfolio_value += holding['quantity'] * current_price

    [add_holding] is the body of the loop, [portfolio_value] the loop.
    [None] stands for the [KeyError] of [market_data[symbol]] on a held
    symbol that is not listed.  The sum is over integers, so the order in
    which the dictionary is traversed does not matter. *)
Definition add_holding (self : manager) (symbol : string) (holding : position)
    (acc : option Z) : option Z :=
  match acc, market_data self !! symbol with
  | Some v, Some data => Some (v + pos_quantity holding * md_price data)
  | _, _ => None
  end.

Definition portfolio_value (self : manager) (st : session_state) : option Z :=
  map_fold (add_holding self) (Some 0) (portfolio st).

(** ** The same methods in Python's arithmetic

    The definitions above compute with exact rationals.  Module [Py]
    embeds the same methods with the numbers Python computes with: a value
    is an [int] of unbounded size or a [float], an IEEE 754 binary64
    number; every float operation rounds to nearest, ties to even
    ([SpecFloat], with 53 bits of precision); an [int] that meets a
    [float] in an operation is converted to [float] first, which raises
    [OverflowError] when it is too large; comparisons between an [int] and
    a [float] compare the exact values; [/] raises [ZeroDivisionError] on a
    zero divisor. *)
Module Py.

Definition prec : Z := 53.
Definition emax : Z := 1024.

Inductive number :=
| Int (z : Z)
| Float (f : spec_float).

Inductive exception := ZeroDivisionError | OverflowError.

(** The value of an expression, or the exception it raises. *)
Inductive outcome (A : Type) :=
| Val (a : A)
| Exn (e : exception).
Arguments Val {A} a.
Arguments Exn {A} e.

(** [float(z)]. *)
Definition to_float (z : Z) : outcome spec_float :=
  match binary_normalize prec emax z 0 false with
  | S754_infinity _ => Exn OverflowError
  | f => Val f
  end.

Definition as_float (x : number) : outcome spec_float :=
  match x with
  | Int z => to_float z
  | Float f => Val f
  end.

(** The double nearest to the exact quotient [n / d] of two integers,
    [d] not zero: [SFdiv] computes the quotient of the two mantissas with
    the extra bits and the location needed to round it once. *)
Definition round_quotient (n d : Z) : spec_float :=
  let of_int z :=
    match z with
    | Z0 => S754_zero false
    | Zpos p => S754_finite false p 0
    | Zneg p => S754_finite true p 0
    end in
  SFdiv prec emax (of_int n) (of_int d).

(** A decimal literal such as [0.075], written [literal 75 1000]: Python
    reads it as the double nearest to the decimal value. *)
Definition literal (n d : Z) : number := Float (round_quotient n d).

Definition lift2 (op : spec_float -> spec_float -> spec_float)
    (x y : number) : outcome number :=
  match as_float x with
  | Exn e => Exn e
  | Val fx =>
      match as_float y with
      | Exn e => Exn e
      | Val fy => Val (Float (op fx fy))
      end
  end.

(** [x * y], [x + y], [x - y]. *)
Definition mul (x y : number) : outcome number :=
  match x, y with
  | Int a, Int b => Val (Int (a * b))
  | _, _ => lift2 (SFmul prec emax) x y
  end.

Definition add (x y : number) : outcome number :=
  match x, y with
  | Int a, Int b => Val (Int (a + b))
  | _, _ => lift2 (SFadd prec emax) x y
  end.

Definition sub (x y : number) : outcome number :=
  match x, y with
  | Int a, Int b => Val (Int (a - b))
  | _, _ => lift2 (SFsub prec emax) x y
  end.

(** [x / y]. *)
Definition truediv (x y : number) : outcome number :=
  match x, y with
  | Int a, Int b =>
      if (b =? 0)%Z then Exn ZeroDivisionError
      else match round_quotient a b with
           | S754_infinity _ => Exn OverflowError
           | f => Val (Float f)
           end
  | _, _ =>
      match as_float x with
      | Exn e => Exn e
      | Val fx =>
          match as_float y with
          | Exn e => Exn e
          | Val (S754_zero _) => Exn ZeroDivisionError
          | Val fy => Val (Float (SFdiv prec emax fx fy))
          end
      end
  end.

(** The exact value of a number: a signed mantissa [m] and an exponent [e]
    for [m * 2^e], an infinity, or not a number. *)
Inductive extended :=
| Finite (m e : Z)
| Infinite (negative : bool)
| NotANumber.

Definition value (x : number) : extended :=
  match x with
  | Int z => Finite z 0
  | Float (S754_zero _) => Finite 0 0
  | Float (S754_finite s m e) => Finite (if s then Zneg m else Zpos m) e
  | Float (S754_infinity s) => Infinite s
  | Float S754_nan => NotANumber
  end.

(** Comparison of the exact values; [None] when one is not a number. *)
Definition compare (x y : number) : option comparison :=
  match value x, value y with
  | NotANumber, _ | _, NotANumber => None
  | Infinite s1, Infinite s2 =>
      Some (match s1, s2 with
            | true, false => Lt
            | false, true => Gt
            | _, _ => Eq
            end)
  | Infinite s, Finite _ _ => Some (if s then Lt else Gt)
  | Finite _ _, Infinite s => Some (if s then Gt else Lt)
  | Finite m1 e1, Finite m2 e2 =>
      let e := Z.min e1 e2 in
      Some (Z.compare (m1 * 2 ^ (e1 - e)) (m2 * 2 ^ (e2 - e)))
  end.

(** [x < y] and [x > y]. *)
Definition lt (x y : number) : bool :=
  match compare x y with Some Lt => true | _ => false end.

Definition gt (x y : number) : bool :=
  match compare x y with Some Gt => true | _ => false end.

(** [max(a, b)]: the first argument unless the second is strictly larger. *)
Definition max (a b : number) : number := if gt b a then b else a.

(** Truth value of a number: zero is falsy. *)
Definition truthy (x : number) : bool :=
  match x with
  | Int z => negb (z =? 0)%Z
  | Float (S754_zero _) => false
  | Float _ => true
  end.

(** [price if price else current_price]. *)
Definition price_or (price : option number) (current_price : number) : number :=
  match price with
  | Some p => if truthy p then p else current_price
  | None => current_price
  end.

(** The exact value as a rational, for finite numbers (0 otherwise). *)
Definition to_Q (x : number) : Q :=
  match value x with
  | Finite m e =>
      match e with
      | Z0 => inject_Z m
      | Zpos p => inject_Z (m * 2 ^ e)
      | Zneg p => Qmake m (2 ^ p)
      end
  | _ => 0%Q
  end.

(** [self.brvm_rules], [self], positions, transactions and
    [st.session_state] as in the exact embedding, with Python numbers. *)
Record rules := Rules {
  trading_open : string;
  trading_close : string;
  settlement_days : Z;
  min_lot_size : Z;
  price_limits_static : number;
  commission_rate : number;
  min_commission : number;
  trading_days : list string
}.

Record manager := Manager {
  market_data : gmap string instrument;
  brvm_rules : rules
}.

Record position := Position {
  pos_quantity : Z;
  pos_avg_price : number;
  pos_sector : string
}.

Record transaction := Transaction {
  tx_timestamp : datetime;
  tx_symbol : string;
  tx_type : string;
  tx_quantity : Z;
  tx_price : number;
  tx_commission : number;
  tx_total : number;
  tx_settlement_date : datetime
}.

Record session_state := SessionState {
  portfolio : gmap string position;
  transactions : list transaction;
  cash_balance : number;
  pending_orders : list unit
}.

Inductive message :=
| SymboleNonTrouve
| PrixHorsLimites (lower_limit upper_limit : number)
| LiquiditesInsuffisantes
| QuantiteTropImportante
| ActionsInsuffisantes
| AchatExecute (q : Z) (symbol : string) (order_price commission : number)
| VenteExecutee (q : Z) (symbol : string) (order_price commission : number).

Inductive result :=
| Return (ok : bool) (msg : message)
| ReturnNone
| Raise (e : exception).

(** The rule dictionary built by [load_market_data]: 0.075 and 0.006 are
    float literals, 5000 is an [int]. *)
Definition brvm_rules_data : rules :=
  {| trading_open := "08:00";
     trading_close := "15:30";
     settlement_days := 3;
     min_lot_size := 1;
     price_limits_static := literal 75 1000;
     commission_rate := literal 6 1000;
     min_commission := Int 5000;
     trading_days := ["Monday"; "Tuesday"; "Wednesday"; "Thursday"; "Friday"] |}.

Definition load_market_data : manager :=
  {| market_data := brvm_market_data; brvm_rules := brvm_rules_data |}.

Definition initialize_session_state : session_state :=
  {| portfolio := ∅; transactions := []; cash_balance := Int 1000000;
     pending_orders := [] |}.

(** [calculate_price_limits]: the upper limit is computed first. *)
Definition calculate_price_limits (self : manager) (reference_price : number)
    : outcome (number * number) :=
  let limit_pct := price_limits_static (brvm_rules self) in
  match add (Int 1) limit_pct with
  | Exn e => Exn e
  | Val up =>
    match mul reference_price up with
    | Exn e => Exn e
    | Val upper_limit =>
      match sub (Int 1) limit_pct with
      | Exn e => Exn e
      | Val down =>
        match mul reference_price down with
        | Exn e => Exn e
        | Val lower_limit => Val (lower_limit, upper_limit)
        end
      end
    end
  end.

(** [calculate_commission]. *)
Definition calculate_commission (self : manager) (amount : number) : outcome number :=
  match mul amount (commission_rate (brvm_rules self)) with
  | Exn e => Exn e
  | Val proportional => Val (max proportional (min_commission (brvm_rules self)))
  end.

Definition set_cash_balance (c : number) (st : session_state) : session_state :=
  {| portfolio := portfolio st; transactions := transactions st;
     cash_balance := c; pending_orders := pending_orders st |}.

Definition set_portfolio (p : gmap string position) (st : session_state) : session_state :=
  {| portfolio := p; transactions := transactions st;
     cash_balance := cash_balance st; pending_orders := pending_orders st |}.

Definition append_transaction (t : transaction) (st : session_state) : session_state :=
  {| portfolio := portfolio st; transactions := (transactions st ++ [t])%list;
     cash_balance := cash_balance st; pending_orders := pending_orders st |}.

(** The new average price of a held position, once its quantity has been
    incremented to [new_quantity]:

      old_value = avg_price * quantity_held - quantity * order_price
      avg_price = (old_value + quantity * order_price) / new_quantity  *)
Definition recomputed_avg_price (avg_price : number) (new_quantity quantity : Z)
    (order_price : number) : outcome number :=
  match mul avg_price (Int new_quantity) with
  | Exn e => Exn e
  | Val held_value =>
    match mul (Int quantity) order_price with
    | Exn e => Exn e
    | Val bought_value =>
      match sub held_value bought_value with
      | Exn e => Exn e
      | Val old_value =>
        match add old_value bought_value with
        | Exn e => Exn e
        | Val new_value => truediv new_value (Int new_quantity)
        end
      end
    end
  end.

(** The position update of the BUY branch; an exception leaves the
    quantity already incremented. *)
Definition buy_upsert (data : instrument) (symbol : string) (quantity : Z)
    (order_price : number) (st : session_state) : option exception * session_state :=
  match portfolio st !! symbol with
  | Some pos =>
      let pos := {| pos_quantity := pos_quantity pos + quantity;
                    pos_avg_price := pos_avg_price pos;
                    pos_sector := pos_sector pos |} in
      let st := set_portfolio (<[symbol := pos]> (portfolio st)) st in
      match recomputed_avg_price (pos_avg_price pos) (pos_quantity pos)
              quantity order_price with
      | Exn e => (Some e, st)
      | Val avg_price =>
          let pos := {| pos_quantity := pos_quantity pos;
                        pos_avg_price := avg_price;
                        pos_sector := pos_sector pos |} in
          (None, set_portfolio (<[symbol := pos]> (portfolio st)) st)
      end
  | None =>
      let pos := {| pos_quantity := quantity;
                    pos_avg_price := order_price;
                    pos_sector := md_sector data |} in
      (None, set_portfolio (<[symbol := pos]> (portfolio st)) st)
  end.

Definition sell_update (symbol : string) (quantity : Z) (pos : position)
    (st : session_state) : session_state :=
  let pos := {| pos_quantity := pos_quantity pos - quantity;
                pos_avg_price := pos_avg_price pos;
                pos_sector := pos_sector pos |} in
  let st := set_portfolio (<[symbol := pos]> (portfolio st)) st in
  if (pos_quantity pos =? 0)%Z then set_portfolio (delete symbol (portfolio st)) st
  else st.

(** [execute_order(self, symbol, order_type, quantity, price=None)].  An
    exception raised by an operation leaves [execute_order] in the state
    reached so far. *)
Definition execute_order (self : manager) (now : nat -> datetime)
    (symbol order_type : string) (quantity : Z) (price : option number)
    (st : session_state) : result * session_state :=
  match market_data self !! symbol with
  | None => (Return false SymboleNonTrouve, st)
  | Some data =>
    let current_price := Int (md_price data) in
    let order_price := price_or price current_price in
    match calculate_price_limits self current_price with
    | Exn e => (Raise e, st)
    | Val (lower_limit, upper_limit) =>
    if lt order_price lower_limit || gt order_price upper_limit then
      (Return false (PrixHorsLimites lower_limit upper_limit), st)
    else
      match mul (Int quantity) order_price with
      | Exn e => (Raise e, st)
      | Val total_amount =>
      match calculate_commission self total_amount with
      | Exn e => (Raise e, st)
      | Val commission =>
      if String.eqb order_type "BUY" then
        match add total_amount commission with
        | Exn e => (Raise e, st)
        | Val total_cost =>
        if lt (cash_balance st) total_cost then
          (Return false LiquiditesInsuffisantes, st)
        else
          match mul (Int (md_volume data)) (literal 1 10) with
          | Exn e => (Raise e, st)
          | Val cap =>
          if gt (Int quantity) cap then
            (Return false QuantiteTropImportante, st)
          else
            match sub (cash_balance st) total_cost with
            | Exn e => (Raise e, st)
            | Val new_cash =>
            let st := set_cash_balance new_cash st in
            match buy_upsert data symbol quantity order_price st with
            | (Some e, st) => (Raise e, st)
            | (None, st) =>
              let transaction :=
                {| tx_timestamp := now 0%nat;
                   tx_symbol := symbol;
                   tx_type := "BUY";
                   tx_quantity := quantity;
                   tx_price := order_price;
                   tx_commission := commission;
                   tx_total := total_cost;
                   tx_settlement_date :=
                     add_days (now 1%nat) (settlement_days (brvm_rules self)) |} in
              (Return true (AchatExecute quantity symbol order_price commission),
               append_transaction transaction st)
            end
            end
          end
        end
      else if String.eqb order_type "SELL" then
        match portfolio st !! symbol with
        | None => (Return false ActionsInsuffisantes, st)
        | Some pos =>
          if (pos_quantity pos <? quantity)%Z then
            (Return false ActionsInsuffisantes, st)
          else
            match sub total_amount commission with
            | Exn e => (Raise e, st)
            | Val total_received =>
            match add (cash_balance st) total_received with
            | Exn e => (Raise e, st)
            | Val new_cash =>
            let st := set_cash_balance new_cash st in
            let st := sell_update symbol quantity pos st in
            let transaction :=
              {| tx_timestamp := now 0%nat;
                 tx_symbol := symbol;
                 tx_type := "SELL";
                 tx_quantity := quantity;
                 tx_price := order_price;
                 tx_commission := commission;
                 tx_total := total_received;
                 tx_settlement_date :=
                   add_days (now 1%nat) (settlement_days (brvm_rules self)) |} in
            (Return true (VenteExecutee quantity symbol order_price commission),
             append_transaction transaction st)
            end
            end
        end
      else (ReturnNone, st)
      end
      end
    end
  end.

Definition accepted (r : result) : bool :=
  match r with Return true _ => true | _ => false end.

Definition rejected (r : result) : bool :=
  match r with Return false _ => true | _ => false end.

End Py.

(** ** Basic facts about the primitives *)

Lemma Qlt_bool_true (a b : Q) : Qlt_bool a b = true <-> (a < b)%Q.
Proof.
  unfold Qlt_bool. rewrite negb_true_iff. split.
  - intros H. apply Qnot_le_lt. intros Hle.
    apply Qle_bool_iff in Hle. congruence.
  - intros H. destruct (Qle_bool b a) eqn:E; [|reflexivity].
    apply Qle_bool_iff in E. exfalso. apply (Qlt_not_le _ _ H E).
Qed.

Lemma Qlt_bool_false (a b : Q) : Qlt_bool a b = false <-> (b <= a)%Q.
Proof.
  unfold Qlt_bool. rewrite negb_false_iff. apply Qle_bool_iff.
Qed.

Lemma py_max_ge_r (a b : Q) : (b <= py_max a b)%Q.
Proof.
  unfold py_max. destruct (Qlt_bool a b) eqn:E.
  - apply Qle_refl.
  - now apply Qlt_bool_false.
Qed.

Lemma py_max_ge_l (a b : Q) : (a <= py_max a b)%Q.
Proof.
  unfold py_max. destruct (Qlt_bool a b) eqn:E.
  - apply Qlt_le_weak. now apply Qlt_bool_true.
  - apply Qle_refl.
Qed.

Lemma eqb_SELL_BUY : String.eqb "SELL" "BUY" = false.
Proof. reflexivity. Qed.

(** Unfolds the calls of [execute_order] in the goal, down to the chain of
    tests of its body. *)
Ltac open_order :=
  unfold execute_order, calculate_price_limits;
  cbv beta iota zeta.

(** ** The order does not read the clock *)

Lemma buy_upsert_cash data symbol quantity order_price st :
  cash_balance (snd (buy_upsert data symbol quantity order_price st))
  = cash_balance st.
Proof.
  unfold buy_upsert. destruct (portfolio st !! symbol) as [pos|]; simpl.
  - destruct (_ =? 0)%Z; reflexivity.
  - reflexivity.
Qed.

Lemma buy_upsert_transactions data symbol quantity order_price st :
  transactions (snd (buy_upsert data symbol quantity order_price st))
  = transactions st.
Proof.
  unfold buy_upsert. destruct (portfolio st !! symbol) as [pos|]; simpl.
  - destruct (_ =? 0)%Z; reflexivity.
  - reflexivity.
Qed.

Lemma sell_update_cash symbol quantity pos st :
  cash_balance (sell_update symbol quantity pos st) = cash_balance st.
Proof. unfold sell_update. simpl. destruct (_ =? 0)%Z; reflexivity. Qed.

Lemma sell_update_transactions symbol quantity pos st :
  transactions (sell_update symbol quantity pos st) = transactions st.
Proof. unfold sell_update. simpl. destruct (_ =? 0)%Z; reflexivity. Qed.

(** A returned [False] comes before any assignment to the session state. *)
Lemma rejection_precedes_mutation
    (self : manager) (now : nat -> datetime) (symbol order_type : string)
    (quantity : Z) (price : option Q) (st : session_state) :
  rejected (fst (execute_order self now symbol order_type quantity price st)) = true ->
  snd (execute_order self now symbol order_type quantity price st) = st.
Proof.
  open_order.
  destruct (market_data self !! symbol) as [data|]; [|reflexivity].
  destruct (_ || _); [reflexivity|].
  destruct (String.eqb order_type "BUY").
  - destruct (Qlt_bool (cash_balance st) _); [reflexivity|].
    destruct (Qlt_bool _ (inject_Z quantity)); [reflexivity|].
    destruct (buy_upsert _ _ _ _ _) as [[e|] st1]; simpl; discriminate.
  - destruct (String.eqb order_type "SELL"); [|reflexivity].
    destruct (portfolio st !! symbol) as [pos|]; [|reflexivity].
    destruct (_ <? _)%Z; [reflexivity|]. simpl. discriminate.
Qed.


(** C4. Whenever [execute_order] rejects an order, whatever the reason
    (unknown symbol, price out of band, insufficient funds, liquidity
    exceeded, insufficient holdings), the session state it leaves is the
    state it was called in: cash, portfolio and transaction log are
    untouched. *)
Theorem rejected_order_leaves_state
    (self : manager) (now : nat -> datetime) (symbol order_type : string)
    (quantity : Z) (price : option Q) (st : session_state) :
  rejected (fst (execute_order self now symbol order_type quantity price st)) = true ->
  let st' := snd (execute_order self now symbol order_type quantity price st) in
  st' = st /\
  cash_balance st' = cash_balance st /\
  portfolio st' = portfolio st /\
  transactions st' = transactions st.
Proof.
  intros Hrej st'. subst st'.
  rewrite (rejection_precedes_mutation _ _ _ _ _ _ _ Hrej). auto.
Qed.

(** Scenario B: SELL on a symbol absent from the portfolio. *)
Lemma rejected_order_leaves_state_witness :
  rejected (fst (execute_order load_market_data (frozen wednesday_morning)
                   "BICC" "SELL" 5 None initialize_session_state)) = true /\
  let st' := snd (execute_order load_market_data (frozen wednesday_morning)
                    "BICC" "SELL" 5 None initialize_session_state) in
  st' = initialize_session_state /\
  cash_balance st' = cash_balance initialize_session_state /\
  portfolio st' = portfolio initialize_session_state /\
  transactions st' = transactions initialize_session_state.
Proof.
  split.
  - reflexivity.
  - apply (rejected_order_leaves_state load_market_data (frozen wednesday_morning)
             "BICC" "SELL" 5 None initialize_session_state).
    reflexivity.
Defined.

(** C10. The outcome of an order does not depend on the clock: run from
    the same account and market state under two different clocks (for
    instance one inside and one outside trading hours or trading days),
    [execute_order] returns the same tuple, success flag and message, and
    leaves the same cash balance and portfolio.  [is_trading_time] is never
    consulted; the clock only stamps the recorded transaction. *)
Theorem execute_order_ignores_clock
    (self : manager) (now now' : nat -> datetime) (symbol order_type : string)
    (quantity : Z) (price : option Q) (st : session_state) :
  let r := execute_order self now symbol order_type quantity price st in
  let r' := execute_order self now' symbol order_type quantity price st in
  fst r = fst r' /\
  cash_balance (snd r) = cash_balance (snd r') /\
  portfolio (snd r) = portfolio (snd r').
Proof.
  open_order.
  destruct (market_data self !! symbol) as [data|]; [|auto].
  destruct (_ || _); [auto|].
  destruct (String.eqb order_type "BUY").
  - destruct (Qlt_bool (cash_balance st) _); [auto|].
    destruct (Qlt_bool _ (inject_Z quantity)); [auto|].
    destruct (buy_upsert _ _ _ _ _) as [[e|] st1]; simpl; auto.
  - destruct (String.eqb order_type "SELL"); [|auto].
    destruct (portfolio st !! symbol) as [pos|]; [|auto].
    destruct (_ <? _)%Z; simpl; auto.
Qed.

(** The trading window checker does tell the two clocks of the examples
    apart: the market is open on Wednesday morning and closed on Sunday
    evening, and the same purchase is executed under both. *)
Example trading_window_is_advisory :
  fst (is_trading_time load_market_data wednesday_morning) = true /\
  fst (is_trading_time load_market_data sunday_evening) = false /\
  accepted (fst (execute_order load_market_data (frozen wednesday_morning)
                   "BICC" "BUY" 10 None initialize_session_state)) = true /\
  accepted (fst (execute_order load_market_data (frozen sunday_evening)
                   "BICC" "BUY" 10 None initialize_session_state)) = true.
Proof. vm_compute. auto. Qed.

(** ** Accepted BUY orders *)

(** What the position update of a BUY does to the entry of [symbol]. *)
Lemma buy_upsert_completes data symbol quantity order_price st st1 :
  buy_upsert data symbol quantity order_price st = (None, st1) ->
  cash_balance st1 = cash_balance st /\
  transactions st1 = transactions st /\
  match portfolio st !! symbol with
  | Some pos =>
      pos_quantity pos + quantity <> 0 /\
      exists pos',
        portfolio st1 !! symbol = Some pos' /\
        pos_quantity pos' = pos_quantity pos + quantity /\
        pos_sector pos' = pos_sector pos /\
        (pos_avg_price pos' ==
           ((pos_avg_price pos * inject_Z (pos_quantity pos + quantity)
             - inject_Z quantity * order_price)
            + inject_Z quantity * order_price)
           / inject_Z (pos_quantity pos + quantity))%Q
  | None =>
      portfolio st1 !! symbol
      = Some {| pos_quantity := quantity; pos_avg_price := order_price;
                pos_sector := md_sector data |}
  end.
Proof.
  unfold buy_upsert. destruct (portfolio st !! symbol) as [pos|] eqn:Hpos.
  - cbv beta iota zeta. simpl pos_quantity. simpl pos_avg_price. simpl pos_sector.
    destruct (pos_quantity pos + quantity =? 0)%Z eqn:Hz; [discriminate|].
    intros [= <-]. simpl. repeat split; try reflexivity.
    + now apply Z.eqb_neq.
    + eexists. split; [apply lookup_insert_eq|]. simpl.
      repeat split; reflexivity.
  - intros [= <-]. simpl. repeat split; try reflexivity.
    apply lookup_insert_eq.
Qed.

(** Scenario A in numbers: gross 85000, commission 5000, debit 90000, and a
    new position of 10 shares at 8500. *)
Example scenario_A (now : nat -> datetime) :
  let r := execute_order load_market_data now "BICC" "BUY" 10 None
             initialize_session_state in
  fst r = Return true (AchatExecute 10 "BICC" (8500 # 1) (5000 # 1)) /\
  (cash_balance (snd r) == (1000000 # 1) - (90000 # 1))%Q /\
  portfolio (snd r) !! "BICC" = Some (Position 10 (8500 # 1) "Construction").
Proof. vm_compute. repeat split; reflexivity. Qed.

(** On a symbol already held, the statement that recomputes the average
    price runs after ['quantity'] has been incremented, so its [old_value]
    is [avg_price * (old + quantity) - quantity * order_price] and the
    quotient gives back the average price the position already had. *)
Lemma buy_on_held_symbol_keeps_avg_price
    (self : manager) (now : nat -> datetime) (symbol : string)
    (quantity : Z) (price : option Q) (st : session_state) (pos : position) :
  portfolio st !! symbol = Some pos ->
  accepted (fst (execute_order self now symbol "BUY" quantity price st)) = true ->
  exists pos',
    portfolio (snd (execute_order self now symbol "BUY" quantity price st)) !! symbol
    = Some pos' /\
    pos_quantity pos' = pos_quantity pos + quantity /\
    (pos_avg_price pos' == pos_avg_price pos)%Q.
Proof.
  intros Hheld. open_order.
  destruct (market_data self !! symbol) as [data|]; [|discriminate].
  destruct (_ || _); [discriminate|].
  change (String.eqb "BUY" "BUY") with true. cbv iota.
  destruct (Qlt_bool (cash_balance st) _); [discriminate|].
  destruct (Qlt_bool _ (inject_Z quantity)); [discriminate|].
  destruct (buy_upsert _ _ _ _ _) as [[e|] st1] eqn:Hup; [discriminate|].
  intros _. apply buy_upsert_completes in Hup as (_ & _ & Hpos).
  simpl in Hpos. rewrite Hheld in Hpos.
  destruct Hpos as (Hnz & pos' & Hl & Hq & _ & Havg).
  exists pos'. simpl. repeat split; [exact Hl | exact Hq |].
  rewrite Havg. field.
  intros Hz. apply Hnz. unfold Qeq in Hz. simpl in Hz. lia.
Qed.

(** C1, on the code.  Scenario D, BUY 10 BICC at 8500 then BUY 10 BICC at
    9000 on a fresh session: both orders are accepted and the position
    holds 20 shares, but its average price is still 8500, not the
    value-weighted 8750. *)
Theorem scenario_D_avg_price_not_blended (now : nat -> datetime) :
  let r1 := execute_order load_market_data now "BICC" "BUY" 10 (Some (8500 # 1))
              initialize_session_state in
  let r2 := execute_order load_market_data now "BICC" "BUY" 10 (Some (9000 # 1))
              (snd r1) in
  accepted (fst r1) = true /\ accepted (fst r2) = true /\
  exists pos, portfolio (snd r2) !! "BICC" = Some pos /\
    pos_quantity pos = 20 /\
    (pos_avg_price pos == 8500 # 1)%Q /\
    ~ (pos_avg_price pos ==
         (inject_Z 10 * (8500 # 1) + inject_Z 10 * (9000 # 1)) / inject_Z (10 + 10))%Q.
Proof.
  vm_compute. repeat split.
  eexists. split; [reflexivity|]. repeat split; discriminate.
Qed.

(** ** Accepted SELL orders *)

(** What the position update of a SELL does to the entry of [symbol]. *)
Lemma sell_update_lookup symbol quantity pos st :
  portfolio (sell_update symbol quantity pos st) !! symbol
  = if (pos_quantity pos - quantity =? 0)%Z then None
    else Some {| pos_quantity := pos_quantity pos - quantity;
                 pos_avg_price := pos_avg_price pos;
                 pos_sector := pos_sector pos |}.
Proof.
  unfold sell_update. cbv zeta. simpl pos_quantity.
  destruct (pos_quantity pos - quantity =? 0)%Z; simpl.
  - apply lookup_delete_eq.
  - apply lookup_insert_eq.
Qed.

Lemma sell_update_lookup_ne symbol other quantity pos st :
  symbol <> other ->
  portfolio (sell_update symbol quantity pos st) !! other = portfolio st !! other.
Proof.
  intros Hne. unfold sell_update. cbv zeta. simpl pos_quantity.
  destruct (pos_quantity pos - quantity =? 0)%Z; simpl.
  - rewrite lookup_delete_ne by exact Hne. now rewrite lookup_insert_ne.
  - now rewrite lookup_insert_ne.
Qed.

(** Selling part of the position of Scenario A, then the rest: 4 shares
    leave 6 at the same average price, 6 more remove the entry. *)
Example sell_part_then_rest (now : nat -> datetime) :
  let r1 := execute_order load_market_data now "BICC" "SELL" 4 None after_scenario_A in
  let r2 := execute_order load_market_data now "BICC" "SELL" 6 None (snd r1) in
  fst r1 = Return true (VenteExecutee 4 "BICC" (8500 # 1) (5000 # 1)) /\
  portfolio (snd r1) !! "BICC" = Some (Position 6 (8500 # 1) "Construction") /\
  (cash_balance (snd r1) == (910000 # 1) + ((34000 # 1) - (5000 # 1)))%Q /\
  fst r2 = Return true (VenteExecutee 6 "BICC" (8500 # 1) (5000 # 1)) /\
  portfolio (snd r2) !! "BICC" = None.
Proof. vm_compute. repeat split; reflexivity. Qed.

(** ** The price band *)

Lemma calculate_price_limits_static (self : manager) (R : Q) :
  (price_limits_static (brvm_rules self) == 75 # 1000)%Q ->
  (fst (calculate_price_limits self R) == R * (925 # 1000))%Q /\
  (snd (calculate_price_limits self R) == R * (1075 # 1000))%Q.
Proof.
  intros Hs. unfold calculate_price_limits. simpl. rewrite Hs. split; field.
Qed.

(** The band test of [execute_order], read as a proposition. *)
Lemma band_test_true (p lo hi : Q) :
  Qlt_bool p lo || Qlt_bool hi p = true <-> (p < lo \/ hi < p)%Q.
Proof.
  rewrite orb_true_iff, !Qlt_bool_true. reflexivity.
Qed.

Lemma band_test_false (p lo hi : Q) :
  Qlt_bool p lo || Qlt_bool hi p = false <-> (lo <= p /\ p <= hi)%Q.
Proof.
  rewrite orb_false_iff, !Qlt_bool_false. reflexivity.
Qed.

(** C7. With the static limit of 7.5% and a reference price [R] that is not
    negative, the permissible band is [R * 0.925, R * 1.075], both limits
    included, around the instrument's current price: an order whose
    resolved price is strictly below the lower limit or strictly above the
    upper limit is rejected as out of band and leaves the state untouched;
    an order whose resolved price lies in the band, in particular exactly
    on either limit, is not rejected as out of band. *)
Theorem price_band_is_inclusive
    (self : manager) (now : nat -> datetime) (symbol order_type : string)
    (quantity : Z) (price : option Q) (st : session_state) (data : instrument) :
  market_data self !! symbol = Some data ->
  (price_limits_static (brvm_rules self) == 75 # 1000)%Q ->
  0 <= md_price data ->
  let R := inject_Z (md_price data) in
  let order_price := price_or price R in
  let r := execute_order self now symbol order_type quantity price st in
  ((order_price < R * (925 # 1000) \/ R * (1075 # 1000) < order_price)%Q ->
   (exists lo hi, fst r = Return false (PrixHorsLimites lo hi)) /\ snd r = st) /\
  ((R * (925 # 1000) <= order_price /\ order_price <= R * (1075 # 1000))%Q ->
   forall lo hi, fst r <> Return false (PrixHorsLimites lo hi)) /\
  ((order_price == R * (925 # 1000) \/ order_price == R * (1075 # 1000))%Q ->
   forall lo hi, fst r <> Return false (PrixHorsLimites lo hi)).
Proof.
  intros Hdata Hs HR R order_price r.
  set (limits := calculate_price_limits self R).
  destruct (calculate_price_limits_static self R Hs) as [Hlo Hhi].
  fold limits in Hlo, Hhi.
  assert (Hin : (R * (925 # 1000) <= order_price /\ order_price <= R * (1075 # 1000))%Q ->
                forall lo hi, fst r <> Return false (PrixHorsLimites lo hi)).
  { intros [H1 H2] lo hi. subst r. open_order. rewrite Hdata.
    fold R. fold order_price.
    change (R * (1 - price_limits_static (brvm_rules self)))%Q
      with (fst limits).
    change (R * (1 + price_limits_static (brvm_rules self)))%Q
      with (snd limits).
    assert (Hband : Qlt_bool order_price (fst limits)
                    || Qlt_bool (snd limits) order_price = false).
    { apply band_test_false. rewrite Hlo, Hhi. split; assumption. }
    rewrite Hband.
    destruct (String.eqb order_type "BUY").
    - destruct (Qlt_bool (cash_balance st) _); [discriminate|].
      destruct (Qlt_bool _ (inject_Z quantity)); [discriminate|].
      destruct (buy_upsert _ _ _ _ _) as [[e|] st1]; discriminate.
    - destruct (String.eqb order_type "SELL"); [|discriminate].
      destruct (portfolio st !! symbol) as [pos|]; [|discriminate].
      destruct (_ <? _)%Z; discriminate. }
  split; [|split; [exact Hin|]].
  - intros Hout. subst r. open_order. rewrite Hdata.
    fold R. fold order_price.
    change (R * (1 - price_limits_static (brvm_rules self)))%Q
      with (fst limits).
    change (R * (1 + price_limits_static (brvm_rules self)))%Q
      with (snd limits).
    assert (Hband : Qlt_bool order_price (fst limits)
                    || Qlt_bool (snd limits) order_price = true).
    { apply band_test_true. rewrite Hlo, Hhi. exact Hout. }
    rewrite Hband. simpl. split; [eauto | reflexivity].
  - assert (HR' : (0 <= R)%Q).
    { unfold R, Qle. simpl. lia. }
    intros [Hb|Hb]; apply Hin; rewrite Hb; split; lra.
Qed.

(** Scenario C, as an instance of the theorem: limit price 9200 on BICC,
    whose reference price is 8500. *)
Lemma price_band_is_inclusive_witness :
  market_data load_market_data !! "BICC" = Some (Instrument 8500 (25 # 10) 15000 "Construction") /\
  (price_limits_static (brvm_rules load_market_data) == 75 # 1000)%Q /\
  0 <= 8500 /\
  let R := inject_Z 8500 in
  let order_price := price_or (Some (9200 # 1)) R in
  let r := execute_order load_market_data (frozen wednesday_morning)
             "BICC" "BUY" 10 (Some (9200 # 1)) initialize_session_state in
  ((order_price < R * (925 # 1000) \/ R * (1075 # 1000) < order_price)%Q ->
   (exists lo hi, fst r = Return false (PrixHorsLimites lo hi)) /\
   snd r = initialize_session_state) /\
  ((R * (925 # 1000) <= order_price /\ order_price <= R * (1075 # 1000))%Q ->
   forall lo hi, fst r <> Return false (PrixHorsLimites lo hi)) /\
  ((order_price == R * (925 # 1000) \/ order_price == R * (1075 # 1000))%Q ->
   forall lo hi, fst r <> Return false (PrixHorsLimites lo hi)).
Proof.
  split; [reflexivity|]. split; [reflexivity|]. split; [lia|].
  apply (price_band_is_inclusive load_market_data (frozen wednesday_morning)
           "BICC" "BUY" 10 (Some (9200 # 1)) initialize_session_state
           (Instrument 8500 (25 # 10) 15000 "Construction")).
  - reflexivity.
  - reflexivity.
  - simpl. lia.
Defined.

(** Scenario C in numbers: the band of BICC is 7862.5 - 9137.5, so a limit
    price of 9200 is rejected and nothing changes, while limit prices of
    exactly 9137.5 and exactly 7862.5 are executed. *)
Example scenario_C (now : nat -> datetime) :
  let r := execute_order load_market_data now "BICC" "BUY" 10 (Some (9200 # 1))
             initialize_session_state in
  (exists lo hi, fst r = Return false (PrixHorsLimites lo hi) /\
     (lo == 78625 # 10)%Q /\ (hi == 91375 # 10)%Q) /\
  snd r = initialize_session_state /\
  accepted (fst (execute_order load_market_data now "BICC" "BUY" 10
                   (Some (91375 # 10)) initialize_session_state)) = true /\
  accepted (fst (execute_order load_market_data now "BICC" "BUY" 10
                   (Some (78625 # 10)) initialize_session_state)) = true.
Proof.
  vm_compute. split; [|repeat split].
  eexists _, _. split; [reflexivity|]. split; reflexivity.
Qed.

(** ** The cash balance *)

(** The funds test of the BUY branch keeps the balance from going below
    zero. *)
Lemma accepted_buy_keeps_cash_nonneg
    (self : manager) (now : nat -> datetime) (symbol : string)
    (quantity : Z) (price : option Q) (st : session_state) :
  accepted (fst (execute_order self now symbol "BUY" quantity price st)) = true ->
  (0 <= cash_balance (snd (execute_order self now symbol "BUY" quantity price st)))%Q.
Proof.
  open_order.
  destruct (market_data self !! symbol) as [data|]; [|discriminate].
  destruct (_ || _); [discriminate|].
  change (String.eqb "BUY" "BUY") with true. cbv iota.
  destruct (Qlt_bool (cash_balance st) _) eqn:Hfunds; [discriminate|].
  destruct (Qlt_bool _ (inject_Z quantity)); [discriminate|].
  destruct (buy_upsert _ _ _ _ _) as [[e|] st1] eqn:Hup; [discriminate|].
  intros _. apply buy_upsert_completes in Hup as (Hcash & _ & _).
  simpl. rewrite Hcash. simpl. apply Qlt_bool_false in Hfunds. lra.
Qed.

(** The SELL branch has no such test: the proceeds are credited net of the
    commission, which is at least [min_commission], whatever the gross
    amount. *)
Lemma accepted_sell_cash
    (self : manager) (now : nat -> datetime) (symbol : string)
    (quantity : Z) (price : option Q) (st : session_state) (data : instrument) :
  market_data self !! symbol = Some data ->
  accepted (fst (execute_order self now symbol "SELL" quantity price st)) = true ->
  let total_amount :=
    (inject_Z quantity * price_or price (inject_Z (md_price data)))%Q in
  (cash_balance (snd (execute_order self now symbol "SELL" quantity price st))
   <= cash_balance st + total_amount - min_commission (brvm_rules self))%Q.
Proof.
  intros Hdata. open_order. rewrite Hdata.
  destruct (_ || _); [discriminate|].
  rewrite eqb_SELL_BUY. change (String.eqb "SELL" "SELL") with true. cbv iota.
  destruct (portfolio st !! symbol) as [pos|]; [|discriminate].
  destruct (_ <? _)%Z; [discriminate|].
  intros _. simpl. rewrite sell_update_cash. simpl.
  pose proof (py_max_ge_r
    (inject_Z quantity * price_or price (inject_Z (md_price data))
     * commission_rate (brvm_rules self))%Q
    (min_commission (brvm_rules self))) as Hmax.
  unfold calculate_commission. lra.
Qed.

(** C2, on the code.  From a fresh session, BUY 2830 PRSC at the reference
    price 350 (gross 990500, commission 5943) leaves 3557 in cash; SELL 1
    PRSC is then accepted, its gross amount 350 is below the minimum
    commission 5000, and the cash balance becomes -1093. *)
Theorem sell_below_commission_makes_cash_negative (now : nat -> datetime) :
  let r1 := execute_order load_market_data now "PRSC" "BUY" 2830 None
              initialize_session_state in
  let r2 := execute_order load_market_data now "PRSC" "SELL" 1 None (snd r1) in
  (0 <= cash_balance initialize_session_state)%Q /\
  accepted (fst r1) = true /\
  (cash_balance (snd r1) == 3557 # 1)%Q /\
  accepted (fst r2) = true /\
  (cash_balance (snd r2) == - 1093 # 1)%Q /\
  (cash_balance (snd r2) < 0)%Q.
Proof. vm_compute. repeat split; discriminate. Qed.

(** ** Quantities are not validated *)



(** A second BUY 0 on the position of quantity 0 just stored: the new
    quantity is 0 and the division of the average-price statement raises,
    after the commission has been debited and before any transaction is
    logged. *)
Example buy_zero_twice_raises (now : nat -> datetime) :
  let r1 := execute_order load_market_data now "BICC" "BUY" 0 None
              initialize_session_state in
  let r2 := execute_order load_market_data now "BICC" "BUY" 0 None (snd r1) in
  fst r2 = Raise ZeroDivisionError /\
  (cash_balance (snd r2) == 990000 # 1)%Q /\
  length (transactions (snd r2)) = 1%nat.
Proof. vm_compute. repeat split. Qed.

(** ** Order of the checks *)

(** BUY 2000 BICC on a fresh session, against the claim: the cap is 1500
    shares and the cost 17102000 exceeds the 1000000 in cash, both tests
    would fail, and the message returned is not the one of the liquidity
    test. *)
Lemma liquidity_is_not_checked_first :
  let data := Instrument 8500 (25 # 10) 15000 "Construction" in
  let r := execute_order load_market_data (frozen wednesday_morning)
             "BICC" "BUY" 2000 None initialize_session_state in
  market_data load_market_data !! "BICC" = Some data /\
  (inject_Z (md_volume data) * (1 # 10) < inject_Z 2000)%Q /\
  (cash_balance initialize_session_state
   < inject_Z 2000 * inject_Z (md_price data)
     + calculate_commission load_market_data
         (inject_Z 2000 * inject_Z (md_price data)))%Q /\
  fst r <> Return false QuantiteTropImportante /\
  fst r = Return false LiquiditesInsuffisantes.
Proof.
  vm_compute. repeat split. discriminate.
Qed.

(** Each of the five rejections is reachable from a fresh session (for
    the holdings, see also Scenario B).  The liquidity test rejects when the
    funds suffice: BUY 5000 ETIT costs 95000 and the cap is 4500 shares. *)
Example rejection_reasons (now : nat -> datetime) :
  let run := fun symbol order_type quantity price =>
    fst (execute_order load_market_data now symbol order_type quantity price
           initialize_session_state) in
  run "XXXX" "BUY" 10 None = Return false SymboleNonTrouve /\
  rejected (run "BICC" "BUY" 10 (Some (7000 # 1))) = true /\
  run "BICC" "BUY" 200 None = Return false LiquiditesInsuffisantes /\
  run "ETIT" "BUY" 5000 None = Return false QuantiteTropImportante /\
  run "BICC" "SELL" 1 None = Return false ActionsInsuffisantes /\
  run "BICC" "HOLD" 1 None = ReturnNone.
Proof. vm_compute. repeat split. Qed.

(** ** The transaction log *)

(** The transaction of Scenario A: its total is 90000, a positive amount,
    not the signed cash flow -90000. *)
Lemma buy_total_is_not_negative :
  let r := execute_order load_market_data (frozen wednesday_morning)
             "BICC" "BUY" 10 None initialize_session_state in
  accepted (fst r) = true /\
  exists tx, transactions (snd r) = [tx] /\
    tx_type tx = "BUY" /\
    (tx_total tx == 90000 # 1)%Q /\
    ~ (tx_total tx < 0)%Q /\
    ~ (tx_total tx ==
         - (inject_Z 10 * (8500 # 1)
            + calculate_commission load_market_data (inject_Z 10 * (8500 # 1))))%Q.
Proof.
  vm_compute. split; [reflexivity|]. eexists. split; [reflexivity|].
  repeat split; discriminate.
Qed.

(** * Further properties of the code *)

(** ** Commission *)

(** X1. Under the BRVM rates (0.6%, minimum 5000) the commission is the
    flat 5000 for every amount up to 2500000/3 (about 833333), zero and
    negative amounts included. *)
Theorem commission_is_flat_up_to_threshold (self : manager) (amount : Q) :
  (commission_rate (brvm_rules self) == 6 # 1000)%Q ->
  (min_commission (brvm_rules self) == 5000 # 1)%Q ->
  (amount <= 2500000 # 3)%Q ->
  (calculate_commission self amount == 5000 # 1)%Q.
Proof.
  intros Hr Hm Ha. unfold calculate_commission, py_max.
  destruct (Qlt_bool _ _) eqn:E.
  - exact Hm.
  - apply Qlt_bool_false in E. rewrite Hr, Hm in E. rewrite Hr. lra.
Qed.

Lemma commission_is_flat_up_to_threshold_witness :
  (commission_rate (brvm_rules load_market_data) == 6 # 1000)%Q /\
  (min_commission (brvm_rules load_market_data) == 5000 # 1)%Q /\
  ((85000 # 1) <= 2500000 # 3)%Q /\
  (calculate_commission load_market_data (85000 # 1) == 5000 # 1)%Q.
Proof.
  split; [reflexivity|]. split; [reflexivity|]. split; [vm_compute; discriminate|].
  apply (commission_is_flat_up_to_threshold load_market_data (85000 # 1)).
  - reflexivity.
  - reflexivity.
  - vm_compute; discriminate.
Defined.

(** X2. When the commission rate is not negative, the commission never
    decreases when the amount grows, and it is never below the minimum
    commission. *)
Theorem commission_monotone (self : manager) (a b : Q) :
  (0 <= commission_rate (brvm_rules self))%Q ->
  (a <= b)%Q ->
  (calculate_commission self a <= calculate_commission self b)%Q /\
  (min_commission (brvm_rules self) <= calculate_commission self a)%Q.
Proof.
  intros Hr Hab.
  assert (Hmul : (a * commission_rate (brvm_rules self)
                  <= b * commission_rate (brvm_rules self))%Q).
  { apply Qmult_le_compat_r; assumption. }
  unfold calculate_commission. split.
  - pose proof (py_max_ge_l (b * commission_rate (brvm_rules self))
                  (min_commission (brvm_rules self))) as Hl.
    pose proof (py_max_ge_r (b * commission_rate (brvm_rules self))
                  (min_commission (brvm_rules self))) as Hr'.
    unfold py_max at 1. destruct (Qlt_bool _ _); [exact Hr'|].
    eapply Qle_trans; [exact Hmul | exact Hl].
  - apply py_max_ge_r.
Qed.

Lemma commission_monotone_witness :
  (0 <= commission_rate (brvm_rules load_market_data))%Q /\
  ((85000 # 1) <= (990500 # 1))%Q /\
  (calculate_commission load_market_data (85000 # 1)
   <= calculate_commission load_market_data (990500 # 1))%Q /\
  (min_commission (brvm_rules load_market_data)
   <= calculate_commission load_market_data (85000 # 1))%Q.
Proof.
  split; [vm_compute; discriminate|]. split; [vm_compute; discriminate|].
  apply (commission_monotone load_market_data (85000 # 1) (990500 # 1));
    vm_compute; discriminate.
Defined.

(** ** Orders without a limit price *)

Lemma price_or_zero (p current_price : Q) :
  (p == 0)%Q -> price_or (Some p) current_price = price_or None current_price.
Proof.
  intros Hp. simpl. apply Qeq_bool_iff in Hp. now rewrite Hp.
Qed.

(** X3. A limit price equal to zero is falsy in
    [price if price else current_price]: the order is treated exactly as an
    order without limit price, at the instrument's current price. *)
Theorem zero_limit_price_is_no_limit
    (self : manager) (now : nat -> datetime) (symbol order_type : string)
    (quantity : Z) (p : Q) (st : session_state) :
  (p == 0)%Q ->
  execute_order self now symbol order_type quantity (Some p) st
  = execute_order self now symbol order_type quantity None st.
Proof.
  intros Hp. unfold execute_order.
  destruct (market_data self !! symbol) as [data|]; [|reflexivity].
  rewrite (price_or_zero _ _ Hp). reflexivity.
Qed.

Lemma zero_limit_price_is_no_limit_witness :
  (0 # 7 == 0)%Q /\
  execute_order load_market_data (frozen wednesday_morning)
    "BICC" "BUY" 10 (Some (0 # 7)) initialize_session_state
  = execute_order load_market_data (frozen wednesday_morning)
      "BICC" "BUY" 10 None initialize_session_state.
Proof.
  split; [reflexivity|].
  apply (zero_limit_price_is_no_limit load_market_data (frozen wednesday_morning)
           "BICC" "BUY" 10 (0 # 7) initialize_session_state).
  reflexivity.
Defined.

(** X4. When the listed price and the static limit are not negative, the
    current price lies inside its own band, so an order without limit
    price on a listed symbol is never rejected as out of band. *)
Theorem order_at_current_price_is_in_band
    (self : manager) (now : nat -> datetime) (symbol order_type : string)
    (quantity : Z) (st : session_state) (data : instrument) :
  market_data self !! symbol = Some data ->
  0 <= md_price data ->
  (0 <= price_limits_static (brvm_rules self))%Q ->
  forall lo hi,
    fst (execute_order self now symbol order_type quantity None st)
    <> Return false (PrixHorsLimites lo hi).
Proof.
  intros Hdata HR Hs lo hi. open_order. rewrite Hdata. simpl price_or.
  assert (HR' : (0 <= inject_Z (md_price data))%Q).
  { unfold Qle. simpl. lia. }
  pose proof (Qmult_le_0_compat _ _ HR' Hs) as Hprod.
  assert (Hband : Qlt_bool (inject_Z (md_price data))
                    (inject_Z (md_price data)
                     * (1 - price_limits_static (brvm_rules self)))
                  || Qlt_bool
                       (inject_Z (md_price data)
                        * (1 + price_limits_static (brvm_rules self)))
                       (inject_Z (md_price data)) = false).
  { apply band_test_false. split; lra. }
  rewrite Hband.
  destruct (String.eqb order_type "BUY").
  - destruct (Qlt_bool (cash_balance st) _); [discriminate|].
    destruct (Qlt_bool _ (inject_Z quantity)); [discriminate|].
    destruct (buy_upsert _ _ _ _ _) as [[e|] st1]; discriminate.
  - destruct (String.eqb order_type "SELL"); [|discriminate].
    destruct (portfolio st !! symbol) as [pos|]; [|discriminate].
    destruct (_ <? _)%Z; discriminate.
Qed.

Lemma order_at_current_price_is_in_band_witness :
  market_data load_market_data !! "ETIT"
  = Some (Instrument 18 (45 # 10) 45000 "Telecom") /\
  0 <= 18 /\
  (0 <= price_limits_static (brvm_rules load_market_data))%Q /\
  forall lo hi,
    fst (execute_order load_market_data (frozen wednesday_morning)
           "ETIT" "BUY" 5000 None initialize_session_state)
    <> Return false (PrixHorsLimites lo hi).
Proof.
  split; [reflexivity|]. split; [lia|]. split; [vm_compute; discriminate|].
  apply (order_at_current_price_is_in_band load_market_data
           (frozen wednesday_morning) "ETIT" "BUY" 5000
           initialize_session_state (Instrument 18 (45 # 10) 45000 "Telecom")).
  - reflexivity.
  - simpl. lia.
  - vm_compute; discriminate.
Defined.

(** ** What an order leaves alone *)

Lemma buy_upsert_lookup_ne data symbol other quantity order_price st :
  symbol <> other ->
  portfolio (snd (buy_upsert data symbol quantity order_price st)) !! other
  = portfolio st !! other.
Proof.
  intros Hne. unfold buy_upsert.
  destruct (portfolio st !! symbol) as [pos|]; simpl.
  - destruct (_ =? 0)%Z; simpl; rewrite ?lookup_insert_ne by exact Hne;
      reflexivity.
  - now rewrite lookup_insert_ne.
Qed.

Lemma buy_upsert_pending data symbol quantity order_price st :
  pending_orders (snd (buy_upsert data symbol quantity order_price st))
  = pending_orders st.
Proof.
  unfold buy_upsert. destruct (portfolio st !! symbol) as [pos|]; simpl.
  - destruct (_ =? 0)%Z; reflexivity.
  - reflexivity.
Qed.

Lemma sell_update_pending symbol quantity pos st :
  pending_orders (sell_update symbol quantity pos st) = pending_orders st.
Proof. unfold sell_update. simpl. destruct (_ =? 0)%Z; reflexivity. Qed.

(** X5. Whatever its outcome (rejection, execution, [None] or a raised
    exception), an order on [symbol] leaves the portfolio entry of every
    other symbol, and the pending orders, as they were. *)
Theorem execute_order_touches_one_symbol
    (self : manager) (now : nat -> datetime) (symbol order_type : string)
    (quantity : Z) (price : option Q) (st : session_state) (other : string) :
  symbol <> other ->
  let st' := snd (execute_order self now symbol order_type quantity price st) in
  portfolio st' !! other = portfolio st !! other /\
  pending_orders st' = pending_orders st.
Proof.
  intros Hne. open_order.
  destruct (market_data self !! symbol) as [data|]; [|auto].
  destruct (_ || _); [auto|].
  destruct (String.eqb order_type "BUY").
  - destruct (Qlt_bool (cash_balance st) _); [auto|].
    destruct (Qlt_bool _ (inject_Z quantity)); [auto|].
    pose proof (buy_upsert_lookup_ne data symbol other quantity
                  (price_or price (inject_Z (md_price data)))
                  (set_cash_balance
                     (cash_balance st
                      - (inject_Z quantity * price_or price (inject_Z (md_price data))
                         + calculate_commission self
                             (inject_Z quantity
                              * price_or price (inject_Z (md_price data)))))%Q st)
                  Hne) as Hl.
    pose proof (buy_upsert_pending data symbol quantity
                  (price_or price (inject_Z (md_price data)))
                  (set_cash_balance
                     (cash_balance st
                      - (inject_Z quantity * price_or price (inject_Z (md_price data))
                         + calculate_commission self
                             (inject_Z quantity
                              * price_or price (inject_Z (md_price data)))))%Q st))
      as Hp.
    destruct (buy_upsert _ _ _ _ _) as [[e|] st1]; simpl in *; auto.
  - destruct (String.eqb order_type "SELL"); [|auto].
    destruct (portfolio st !! symbol) as [pos|]; [|auto].
    destruct (_ <? _)%Z; [auto|]. simpl.
    rewrite sell_update_lookup_ne by exact Hne.
    rewrite sell_update_pending. auto.
Qed.

Lemma execute_order_touches_one_symbol_witness :
  "BICC" <> "PRSC" /\
  let st' := snd (execute_order load_market_data (frozen wednesday_morning)
                    "BICC" "SELL" 10 None after_scenario_A) in
  portfolio st' !! "PRSC" = portfolio after_scenario_A !! "PRSC" /\
  pending_orders st' = pending_orders after_scenario_A.
Proof.
  split; [discriminate|].
  apply (execute_order_touches_one_symbol load_market_data
           (frozen wednesday_morning) "BICC" "SELL" 10 None after_scenario_A "PRSC").
  discriminate.
Defined.

(** X6. The transaction log only grows at its end: after any call the old
    log is a prefix of the new one, extended by exactly one transaction
    when the order is executed and by nothing otherwise (rejection, [None],
    raised exception). *)
Theorem transaction_log_is_append_only
    (self : manager) (now : nat -> datetime) (symbol order_type : string)
    (quantity : Z) (price : option Q) (st : session_state) :
  let r := execute_order self now symbol order_type quantity price st in
  exists l,
    transactions (snd r) = (transactions st ++ l)%list /\
    length l = if accepted (fst r) then 1%nat else 0%nat.
Proof.
  open_order.
  assert (Hnil : exists l : list transaction,
             transactions st = (transactions st ++ l)%list /\ length l = 0%nat).
  { exists []. split; [now rewrite app_nil_r | reflexivity]. }
  destruct (market_data self !! symbol) as [data|]; [|exact Hnil].
  destruct (_ || _); [exact Hnil|].
  destruct (String.eqb order_type "BUY").
  - destruct (Qlt_bool (cash_balance st) _); [exact Hnil|].
    destruct (Qlt_bool _ (inject_Z quantity)); [exact Hnil|].
    pose proof (buy_upsert_transactions data symbol quantity
                  (price_or price (inject_Z (md_price data)))
                  (set_cash_balance
                     (cash_balance st
                      - (inject_Z quantity * price_or price (inject_Z (md_price data))
                         + calculate_commission self
                             (inject_Z quantity
                              * price_or price (inject_Z (md_price data)))))%Q st))
      as Ht.
    destruct (buy_upsert _ _ _ _ _) as [[e|] st1]; simpl in *.
    + rewrite Ht. exact Hnil.
    + rewrite Ht. eexists. split; reflexivity.
  - destruct (String.eqb order_type "SELL"); [|exact Hnil].
    destruct (portfolio st !! symbol) as [pos|]; [|exact Hnil].
    destruct (_ <? _)%Z; [exact Hnil|]. simpl.
    rewrite sell_update_transactions. simpl. eexists. split; reflexivity.
Qed.

(** ** When an order is executed *)







(** ** Other order types and the raised exception *)



Lemma buy_upsert_raises data symbol quantity order_price st e st1 :
  buy_upsert data symbol quantity order_price st = (Some e, st1) ->
  exists pos,
    portfolio st !! symbol = Some pos /\
    pos_quantity pos + quantity = 0 /\
    cash_balance st1 = cash_balance st /\
    transactions st1 = transactions st /\
    portfolio st1 !! symbol
    = Some {| pos_quantity := pos_quantity pos + quantity;
              pos_avg_price := pos_avg_price pos;
              pos_sector := pos_sector pos |}.
Proof.
  unfold buy_upsert. destruct (portfolio st !! symbol) as [pos|].
  - cbv zeta. simpl pos_quantity.
    destruct (pos_quantity pos + quantity =? 0)%Z eqn:Hz; [|discriminate].
    intros H. inversion H; subst. exists pos. apply Z.eqb_eq in Hz. simpl.
    repeat split; try assumption. apply lookup_insert_eq.
  - discriminate.
Qed.

(** ** Invariants of the portfolio *)

Lemma execute_order_lookup_ne
    (self : manager) (now : nat -> datetime) (symbol order_type : string)
    (quantity : Z) (price : option Q) (st : session_state) (other : string) :
  symbol <> other ->
  portfolio (snd (execute_order self now symbol order_type quantity price st)) !! other
  = portfolio st !! other.
Proof.
  intros Hne. open_order.
  destruct (market_data self !! symbol) as [data|]; [|auto].
  destruct (_ || _); [auto|].
  destruct (String.eqb order_type "BUY").
  - destruct (Qlt_bool (cash_balance st) _); [auto|].
    destruct (Qlt_bool _ (inject_Z quantity)); [auto|].
    match goal with
    | |- context [buy_upsert ?d ?s ?q ?p ?t] =>
        pose proof (buy_upsert_lookup_ne d s other q p t Hne) as Hl;
        destruct (buy_upsert d s q p t) as [[e|] st1]; simpl in *; exact Hl
    end.
  - destruct (String.eqb order_type "SELL"); [|auto].
    destruct (portfolio st !! symbol) as [pos|]; [|auto].
    destruct (_ <? _)%Z; [auto|]. simpl.
    now rewrite sell_update_lookup_ne.
Qed.

(** Where the entry of [symbol] found after a call comes from. *)
Lemma symbol_entry_after_order
    (self : manager) (now : nat -> datetime) (symbol order_type : string)
    (quantity : Z) (price : option Q) (st : session_state) (pos' : position) :
  portfolio (snd (execute_order self now symbol order_type quantity price st)) !! symbol
  = Some pos' ->
  portfolio st !! symbol = Some pos' \/
  (order_type = "BUY" /\ portfolio st !! symbol = None /\
   exists data, market_data self !! symbol = Some data /\
     pos' = {| pos_quantity := quantity;
               pos_avg_price := price_or price (inject_Z (md_price data));
               pos_sector := md_sector data |}) \/
  (order_type = "BUY" /\
   exists pos, portfolio st !! symbol = Some pos /\
     pos_quantity pos' = pos_quantity pos + quantity /\
     pos_sector pos' = pos_sector pos) \/
  (order_type = "SELL" /\
   exists pos, portfolio st !! symbol = Some pos /\
     quantity <= pos_quantity pos /\
     pos_quantity pos - quantity <> 0 /\
     pos' = {| pos_quantity := pos_quantity pos - quantity;
               pos_avg_price := pos_avg_price pos;
               pos_sector := pos_sector pos |}).
Proof.
  open_order.
  destruct (market_data self !! symbol) as [data|] eqn:Hdata; [|auto].
  destruct (_ || _); [auto|].
  destruct (String.eqb order_type "BUY") eqn:Hb.
  - apply String.eqb_eq in Hb.
    destruct (Qlt_bool (cash_balance st) _); [auto|].
    destruct (Qlt_bool _ (inject_Z quantity)); [auto|].
    destruct (buy_upsert _ _ _ _ _) as [[e|] st1] eqn:Hup; simpl; intros Hl.
    + apply buy_upsert_raises in Hup as (pos & Hpos & _ & _ & _ & Hl').
      simpl in Hpos. rewrite Hl in Hl'. injection Hl' as ->.
      right. right. left. split; [exact Hb|]. exists pos. auto.
    + apply buy_upsert_completes in Hup as (_ & _ & Hcase).
      simpl in Hcase. destruct (portfolio st !! symbol) as [pos|] eqn:Hpos.
      * destruct Hcase as (_ & pos1 & Hl1 & Hq & Hs & _).
        rewrite Hl in Hl1. injection Hl1 as <-.
        right. right. left. split; [exact Hb|]. exists pos. auto.
      * rewrite Hl in Hcase. injection Hcase as ->.
        right. left. split; [exact Hb|]. split; [reflexivity|].
        exists data. auto.
  - destruct (String.eqb order_type "SELL") eqn:Hs; [|auto].
    apply String.eqb_eq in Hs.
    destruct (portfolio st !! symbol) as [pos|] eqn:Hpos;
      [|simpl; intros H0; left; congruence].
    destruct (_ <? _)%Z eqn:Hq; [simpl; intros H0; left; congruence|].
    simpl snd. unfold append_transaction. simpl portfolio.
    rewrite sell_update_lookup.
    destruct (pos_quantity pos - quantity =? 0)%Z eqn:Hz; [discriminate|].
    intros [= <-]. apply Z.ltb_ge in Hq. apply Z.eqb_neq in Hz.
    right. right. right. split; [exact Hs|]. exists pos. auto.
Qed.




(** X13. When every held symbol is listed in the market data and carries
    the sector of its instrument, this is still so after any call: a
    position is only ever created for a listed symbol, with the sector
    copied from the instrument, and later orders keep it.  (The dashboard
    reads [market_data[symbol]] for every held symbol.) *)
Theorem held_symbols_stay_listed
    (self : manager) (now : nat -> datetime) (symbol order_type : string)
    (quantity : Z) (price : option Q) (st : session_state) :
  (forall s pos, portfolio st !! s = Some pos ->
     exists data, market_data self !! s = Some data /\
                  pos_sector pos = md_sector data) ->
  let r := execute_order self now symbol order_type quantity price st in
  forall s pos, portfolio (snd r) !! s = Some pos ->
    exists data, market_data self !! s = Some data /\
                 pos_sector pos = md_sector data.
Proof.
  intros Hinv r s pos' Hl. destruct (decide (symbol = s)) as [<-|Hne].
  - apply symbol_entry_after_order in Hl
      as [Hl | [(_ & _ & data & Hdata & ->) | [(_ & pos & Hpos & _ & Hs)
                                              | (_ & pos & Hpos & _ & _ & ->)]]].
    + exact (Hinv _ _ Hl).
    + exists data. auto.
    + destruct (Hinv _ _ Hpos) as (data & Hdata & Hsec).
      exists data. split; [exact Hdata | congruence].
    + exact (Hinv _ _ Hpos).
  - subst r. rewrite execute_order_lookup_ne in Hl by exact Hne.
    exact (Hinv _ _ Hl).
Qed.

Lemma held_symbols_stay_listed_witness :
  (forall s pos, portfolio initialize_session_state !! s = Some pos ->
     exists data, market_data load_market_data !! s = Some data /\
                  pos_sector pos = md_sector data) /\
  let r := execute_order load_market_data (frozen wednesday_morning)
             "BICC" "BUY" 10 None initialize_session_state in
  forall s pos, portfolio (snd r) !! s = Some pos ->
    exists data, market_data load_market_data !! s = Some data /\
                 pos_sector pos = md_sector data.
Proof.
  split.
  - intros s pos H. simpl in H. rewrite lookup_empty in H. discriminate.
  - apply (held_symbols_stay_listed load_market_data
             (frozen wednesday_morning) "BICC" "BUY" 10 None
             initialize_session_state).
    intros s pos H. simpl in H. rewrite lookup_empty in H. discriminate.
Defined.

(** ** Buying and selling back *)

Lemma buy_upsert_portfolio data symbol quantity order_price st st1 :
  buy_upsert data symbol quantity order_price st = (None, st1) ->
  exists pos',
    portfolio st1 = <[symbol := pos']> (portfolio st) /\
    pos_quantity pos'
    = match portfolio st !! symbol with
      | Some pos => pos_quantity pos + quantity
      | None => quantity
      end /\
    (portfolio st !! symbol = None ->
     pos' = {| pos_quantity := quantity; pos_avg_price := order_price;
               pos_sector := md_sector data |}).
Proof.
  unfold buy_upsert. destruct (portfolio st !! symbol) as [pos|].
  - cbv zeta. simpl pos_quantity.
    destruct (pos_quantity pos + quantity =? 0)%Z; [discriminate|].
    intros [= <-]. simpl. eexists. split; [apply insert_insert_eq|].
    split; [reflexivity | discriminate].
  - intros [= <-]. simpl. eexists. split; [reflexivity|].
    split; reflexivity.
Qed.

Lemma sell_update_portfolio symbol quantity pos st :
  portfolio (sell_update symbol quantity pos st)
  = if (pos_quantity pos - quantity =? 0)%Z then delete symbol (portfolio st)
    else <[symbol := {| pos_quantity := pos_quantity pos - quantity;
                        pos_avg_price := pos_avg_price pos;
                        pos_sector := pos_sector pos |}]> (portfolio st).
Proof.
  unfold sell_update. cbv zeta. simpl pos_quantity.
  destruct (pos_quantity pos - quantity =? 0)%Z; simpl.
  - apply delete_insert_eq.
  - reflexivity.
Qed.



(** ** The portfolio value of the sidebar *)

Lemma add_holding_comm (self : manager) j1 j2 z1 z2 y :
  add_holding self j1 z1 (add_holding self j2 z2 y)
  = add_holding self j2 z2 (add_holding self j1 z1 y).
Proof.
  unfold add_holding.
  destruct y as [v|], (market_data self !! j1) as [d1|],
    (market_data self !! j2) as [d2|]; try reflexivity.
  f_equal. lia.
Qed.

Lemma portfolio_value_insert_fresh (self : manager) (st : session_state) i x :
  portfolio st !! i = None ->
  portfolio_value self (set_portfolio (<[i := x]> (portfolio st)) st)
  = add_holding self i x (portfolio_value self st).
Proof.
  intros Hnone. unfold portfolio_value. simpl portfolio.
  apply (map_fold_insert_L (add_holding self)); [|exact Hnone].
  intros. apply add_holding_comm.
Qed.

Lemma portfolio_value_ext (self : manager) (st1 st2 : session_state) :
  portfolio st1 = portfolio st2 ->
  portfolio_value self st1 = portfolio_value self st2.
Proof. unfold portfolio_value. now intros ->. Qed.

(** Taking one holding out of the sum. *)
Lemma portfolio_value_delete (self : manager) (st : session_state) i old v :
  portfolio st !! i = Some old ->
  portfolio_value self st = Some v ->
  exists data,
    market_data self !! i = Some data /\
    portfolio_value self (set_portfolio (delete i (portfolio st)) st)
    = Some (v - pos_quantity old * md_price data).
Proof.
  intros Hold Hv.
  assert (Hst : portfolio_value self st
                = add_holding self i old
                    (portfolio_value self
                       (set_portfolio (delete i (portfolio st)) st))).
  { rewrite <- (portfolio_value_insert_fresh self
                  (set_portfolio (delete i (portfolio st)) st) i old)
      by apply lookup_delete_eq.
    apply portfolio_value_ext. simpl. now rewrite insert_delete_id. }
  rewrite Hv in Hst. unfold add_holding in Hst.
  destruct (portfolio_value self (set_portfolio (delete i (portfolio st)) st))
    as [w|]; [|discriminate].
  destruct (market_data self !! i) as [data|]; [|discriminate].
  injection Hst as ->. exists data. split; [reflexivity|]. f_equal. lia.
Qed.

(** Replacing one holding in the sum. *)
Lemma portfolio_value_replace (self : manager) (st : session_state) i old new v :
  portfolio st !! i = Some old ->
  portfolio_value self st = Some v ->
  exists data,
    market_data self !! i = Some data /\
    portfolio_value self (set_portfolio (<[i := new]> (portfolio st)) st)
    = Some (v - pos_quantity old * md_price data
            + pos_quantity new * md_price data).
Proof.
  intros Hold Hv.
  destruct (portfolio_value_delete self st i old v Hold Hv)
    as (data & Hdata & Hdel).
  exists data. split; [exact Hdata|].
  rewrite (portfolio_value_ext self _
             (set_portfolio
                (<[i := new]>
                   (portfolio (set_portfolio (delete i (portfolio st)) st)))
                (set_portfolio (delete i (portfolio st)) st)))
    by (simpl; now rewrite insert_delete_eq).
  rewrite portfolio_value_insert_fresh by apply lookup_delete_eq.
  rewrite Hdel. unfold add_holding. now rewrite Hdata.
Qed.

(** Cash and portfolio value after an executed order. *)
Lemma executed_order_effect
    (self : manager) (now : nat -> datetime) (symbol order_type : string)
    (quantity : Z) (price : option Q) (st : session_state) (v : Z) :
  portfolio_value self st = Some v ->
  accepted (fst (execute_order self now symbol order_type quantity price st)) = true ->
  exists data, market_data self !! symbol = Some data /\
    let total_amount :=
      (inject_Z quantity * price_or price (inject_Z (md_price data)))%Q in
    let commission := calculate_commission self total_amount in
    let st' := snd (execute_order self now symbol order_type quantity price st) in
    (order_type = "BUY" /\
     cash_balance st' = (cash_balance st - (total_amount + commission))%Q /\
     portfolio_value self st' = Some (v + quantity * md_price data)) \/
    (order_type = "SELL" /\
     cash_balance st' = (cash_balance st + (total_amount - commission))%Q /\
     portfolio_value self st' = Some (v - quantity * md_price data)).
Proof.
  intros Hv. open_order.
  destruct (market_data self !! symbol) as [data|] eqn:Hdata; [|discriminate].
  destruct (_ || _); [discriminate|].
  destruct (String.eqb order_type "BUY") eqn:Hb.
  - apply String.eqb_eq in Hb.
    destruct (Qlt_bool (cash_balance st) _); [discriminate|].
    destruct (Qlt_bool _ (inject_Z quantity)); [discriminate|].
    destruct (buy_upsert _ _ _ _ _) as [[e|] st1] eqn:Hup; [discriminate|].
    intros _. exists data. split; [reflexivity|]. left. split; [exact Hb|].
    pose proof (buy_upsert_completes _ _ _ _ _ _ Hup) as (Hcash & _ & _).
    apply buy_upsert_portfolio in Hup as (pos' & Hport & Hq & _).
    simpl in Hcash, Hport, Hq. simpl snd. split; [exact Hcash|].
    rewrite (portfolio_value_ext self _
               (set_portfolio (<[symbol := pos']> (portfolio st)) st))
      by exact Hport.
    destruct (portfolio st !! symbol) as [pos|] eqn:Hpos.
    + destruct (portfolio_value_replace self st symbol pos pos' v Hpos Hv)
        as (data' & Hdata' & ->).
      rewrite Hdata in Hdata'. injection Hdata' as <-.
      f_equal. rewrite Hq. ring.
    + rewrite (portfolio_value_insert_fresh self st symbol pos' Hpos), Hv.
      unfold add_holding. rewrite Hdata, Hq. reflexivity.
  - destruct (String.eqb order_type "SELL") eqn:Hs; [|discriminate].
    apply String.eqb_eq in Hs.
    destruct (portfolio st !! symbol) as [pos|] eqn:Hpos; [|discriminate].
    destruct (_ <? _)%Z; [discriminate|].
    intros _. exists data. split; [reflexivity|]. right. split; [exact Hs|].
    simpl snd. split.
    + simpl cash_balance. now rewrite sell_update_cash.
    + pose proof (sell_update_portfolio symbol quantity pos
                    (set_cash_balance
                       (cash_balance st
                        + (inject_Z quantity
                           * price_or price (inject_Z (md_price data))
                           - calculate_commission self
                               (inject_Z quantity
                                * price_or price (inject_Z (md_price data)))))%Q
                       st)) as Hport.
      simpl portfolio at 2 3 in Hport.
      destruct (pos_quantity pos - quantity =? 0)%Z eqn:Hz.
      * apply Z.eqb_eq in Hz.
        rewrite (portfolio_value_ext self _
                   (set_portfolio (delete symbol (portfolio st)) st))
          by exact Hport.
        destruct (portfolio_value_delete self st symbol pos v Hpos Hv)
          as (data' & Hdata' & ->).
        rewrite Hdata in Hdata'. injection Hdata' as <-.
        f_equal. replace (pos_quantity pos) with quantity by lia. reflexivity.
      * rewrite (portfolio_value_ext self _
                   (set_portfolio
                      (<[symbol := {| pos_quantity := pos_quantity pos - quantity;
                                      pos_avg_price := pos_avg_price pos;
                                      pos_sector := pos_sector pos |}]>
                         (portfolio st)) st))
          by exact Hport.
        destruct (portfolio_value_replace self st symbol pos
                    {| pos_quantity := pos_quantity pos - quantity;
                       pos_avg_price := pos_avg_price pos;
                       pos_sector := pos_sector pos |} v Hpos Hv)
          as (data' & Hdata' & ->).
        rewrite Hdata in Hdata'. injection Hdata' as <-.
        f_equal. simpl. ring.
Qed.

(** X15. When the portfolio value of the sidebar is defined (every held
    symbol is listed), an executed BUY raises it by the quantity times the
    instrument's listed price and an executed SELL lowers it by as much,
    whatever the limit price of the order. *)
Theorem executed_order_moves_portfolio_value
    (self : manager) (now : nat -> datetime) (symbol order_type : string)
    (quantity : Z) (price : option Q) (st : session_state) (v : Z) :
  portfolio_value self st = Some v ->
  accepted (fst (execute_order self now symbol order_type quantity price st)) = true ->
  exists data, market_data self !! symbol = Some data /\
    let st' := snd (execute_order self now symbol order_type quantity price st) in
    (order_type = "BUY" /\
     portfolio_value self st' = Some (v + quantity * md_price data)) \/
    (order_type = "SELL" /\
     portfolio_value self st' = Some (v - quantity * md_price data)).
Proof.
  intros Hv Hacc.
  destruct (executed_order_effect self now symbol order_type quantity price st v
              Hv Hacc) as (data & Hdata & [(Hb & _ & Hpv) | (Hs & _ & Hpv)]);
    exists data; (split; [exact Hdata|]); [left | right]; auto.
Qed.

Lemma executed_order_moves_portfolio_value_witness :
  portfolio_value load_market_data after_scenario_A = Some 85000 /\
  accepted (fst (execute_order load_market_data (frozen wednesday_morning)
                   "BICC" "SELL" 4 (Some (9000 # 1)) after_scenario_A)) = true /\
  exists data, market_data load_market_data !! "BICC" = Some data /\
    let st' := snd (execute_order load_market_data (frozen wednesday_morning)
                      "BICC" "SELL" 4 (Some (9000 # 1)) after_scenario_A) in
    ("SELL" = "BUY" /\
     portfolio_value load_market_data st' = Some (85000 + 4 * md_price data)) \/
    ("SELL" = "SELL" /\
     portfolio_value load_market_data st' = Some (85000 - 4 * md_price data)).
Proof.
  split; [vm_compute; reflexivity|]. split; [reflexivity|].
  apply (executed_order_moves_portfolio_value load_market_data
           (frozen wednesday_morning) "BICC" "SELL" 4 (Some (9000 # 1))
           after_scenario_A 85000).
  - vm_compute; reflexivity.
  - reflexivity.
Defined.

Lemma map_fold_add_holding_None (self : manager) (m : gmap string position) :
  map_fold (add_holding self) (Some 0) m = None <->
  exists s pos, m !! s = Some pos /\ market_data self !! s = None.
Proof.
  induction m as [|i x m Hnone IH] using map_ind.
  - rewrite map_fold_empty. split; [discriminate|].
    intros (s & pos & Hl & _). rewrite lookup_empty in Hl. discriminate.
  - rewrite (map_fold_insert_L (add_holding self)); [|intros; apply add_holding_comm|exact Hnone].
    unfold add_holding at 1. split.
    + destruct (map_fold (add_holding self) (Some 0) m) as [v|] eqn:Hfold.
      * destruct (market_data self !! i) eqn:Hi; [discriminate|].
        intros _. exists i, x. split; [apply lookup_insert_eq | exact Hi].
      * intros _. destruct (proj1 IH eq_refl) as (s & pos & Hl & Hs).
        exists s, pos. split; [|exact Hs].
        rewrite lookup_insert_ne; [exact Hl|]. intros ->. congruence.
    + intros (s & pos & Hl & Hs).
      destruct (decide (i = s)) as [->|Hne].
      * rewrite Hs. now destruct (map_fold _ _ m).
      * rewrite lookup_insert_ne in Hl by exact Hne.
        rewrite (proj2 IH); [reflexivity|]. eauto.
Qed.

(** X17. The sidebar computation of the portfolio value fails (with the
    [KeyError] of [market_data[symbol]]) exactly when some held symbol is
    not listed in the market data. *)
Theorem portfolio_value_fails_iff_unlisted
    (self : manager) (st : session_state) :
  portfolio_value self st = None <->
  exists s pos, portfolio st !! s = Some pos /\ market_data self !! s = None.
Proof. apply map_fold_add_holding_None. Qed.

(** ** The trading window *)

Lemma weekday_in_trading_days (wd : Z) :
  0 <= wd < 7 ->
  str_in (nth (Z.to_nat wd) day_names "") (trading_days brvm_rules_data)
  = (wd <? 5)%Z.
Proof.
  intros H.
  assert (Hcases : wd = 0 \/ wd = 1 \/ wd = 2 \/ wd = 3 \/ wd = 4 \/ wd = 5 \/ wd = 6)
    by lia.
  destruct Hcases as [->|[->|[->|[->|[->|[->| ->]]]]]]; reflexivity.
Qed.

Lemma time_of_day_table :
  forallb
    (fun h =>
       forallb
         (fun m =>
            let t := two_digits (Z.of_nat h) ++ ":" ++ two_digits (Z.of_nat m) in
            Bool.eqb (String.ltb t "08:00")
                     (60 * Z.of_nat h + Z.of_nat m <? 480)%Z
            && Bool.eqb (String.ltb "15:30" t)
                        (930 <? 60 * Z.of_nat h + Z.of_nat m)%Z)
         (seq 0 60))
    (seq 0 24) = true.
Proof. vm_compute. reflexivity. Qed.

Lemma time_of_day_compare (h m : Z) :
  0 <= h < 24 -> 0 <= m < 60 ->
  String.ltb (two_digits h ++ ":" ++ two_digits m) "08:00" = (60 * h + m <? 480)%Z /\
  String.ltb "15:30" (two_digits h ++ ":" ++ two_digits m) = (930 <? 60 * h + m)%Z.
Proof.
  intros Hh Hm.
  assert (Hin_h : In (Z.to_nat h) (seq 0 24)) by (apply in_seq; lia).
  assert (Hin_m : In (Z.to_nat m) (seq 0 60)) by (apply in_seq; lia).
  pose proof (proj1 (forallb_forall _ _) time_of_day_table _ Hin_h) as Hrow.
  pose proof (proj1 (forallb_forall _ _) Hrow _ Hin_m) as Hcell.
  cbv zeta in Hcell. rewrite !Z2Nat.id in Hcell by lia.
  apply andb_true_iff in Hcell as [H1 H2].
  apply Bool.eqb_prop in H1, H2. auto.
Qed.

(** X18. Under the BRVM rules, for a valid time of day, [is_trading_time]
    answers closed for the weekend on Saturday and Sunday whatever the
    hour; on the other days it answers not yet open before 08:00, closed
    after 15:30, and open from 08:00 to 15:30, both minutes included. *)
Theorem is_trading_time_window (self : manager) (now : datetime) :
  brvm_rules self = brvm_rules_data ->
  0 <= dt_hour now < 24 ->
  0 <= dt_minute now < 60 ->
  let weekday := (dt_ordinal now + 6) mod 7 in
  let minutes := 60 * dt_hour now + dt_minute now in
  is_trading_time self now
  = if (5 <=? weekday)%Z then (false, MarcheFermeWeekend)
    else if (minutes <? 480)%Z then (false, MarchePasEncoreOuvert "08:00")
    else if (930 <? minutes)%Z then (false, MarcheFerme "15:30")
    else (true, MarcheOuvert).
Proof.
  intros Hrules Hh Hm weekday minutes.
  unfold is_trading_time, strftime_A, strftime_HM. rewrite Hrules.
  fold weekday.
  rewrite weekday_in_trading_days by (unfold weekday; apply Z.mod_pos_bound; lia).
  destruct (time_of_day_compare (dt_hour now) (dt_minute now) Hh Hm) as [H1 H2].
  simpl trading_open. simpl trading_close. rewrite H1, H2. fold minutes.
  destruct (5 <=? weekday)%Z eqn:Hw.
  - apply Z.leb_le in Hw. apply Z.ltb_ge in Hw. now rewrite Hw.
  - apply Z.leb_gt in Hw. apply Z.ltb_lt in Hw. now rewrite Hw.
Qed.

(** Friday 6 November 2026 at 15:30: the last open minute. *)
Lemma is_trading_time_window_witness :
  let now := {| dt_ordinal := 739926; dt_hour := 15; dt_minute := 30;
                dt_second := 59 |} in
  brvm_rules load_market_data = brvm_rules_data /\
  0 <= dt_hour now < 24 /\
  0 <= dt_minute now < 60 /\
  let weekday := (dt_ordinal now + 6) mod 7 in
  let minutes := 60 * dt_hour now + dt_minute now in
  is_trading_time load_market_data now
  = if (5 <=? weekday)%Z then (false, MarcheFermeWeekend)
    else if (minutes <? 480)%Z then (false, MarchePasEncoreOuvert "08:00")
    else if (930 <? minutes)%Z then (false, MarcheFerme "15:30")
    else (true, MarcheOuvert).
Proof.
  cbv zeta. split; [reflexivity|]. split; [simpl; lia|]. split; [simpl; lia|].
  apply (is_trading_time_window load_market_data
           {| dt_ordinal := 739926; dt_hour := 15; dt_minute := 30;
              dt_second := 59 |}).
  - reflexivity.
  - simpl; lia.
  - simpl; lia.
Defined.

(** ** Settlement *)

(** X19. The transaction of an executed order is stamped with the first
    clock reading, and its settlement date is the second clock reading
    moved forward by [settlement_days] calendar days, at the same time of
    day: days are counted without regard to weekends or trading days. *)
Theorem settlement_date_counts_calendar_days
    (self : manager) (now : nat -> datetime) (symbol order_type : string)
    (quantity : Z) (price : option Q) (st : session_state) :
  accepted (fst (execute_order self now symbol order_type quantity price st)) = true ->
  exists tx,
    transactions (snd (execute_order self now symbol order_type quantity price st))
    = (transactions st ++ [tx])%list /\
    tx_timestamp tx = now 0%nat /\
    dt_ordinal (tx_settlement_date tx)
    = dt_ordinal (now 1%nat) + settlement_days (brvm_rules self) /\
    dt_hour (tx_settlement_date tx) = dt_hour (now 1%nat) /\
    dt_minute (tx_settlement_date tx) = dt_minute (now 1%nat) /\
    dt_second (tx_settlement_date tx) = dt_second (now 1%nat).
Proof.
  open_order.
  destruct (market_data self !! symbol) as [data|]; [|discriminate].
  destruct (_ || _); [discriminate|].
  destruct (String.eqb order_type "BUY").
  - destruct (Qlt_bool (cash_balance st) _); [discriminate|].
    destruct (Qlt_bool _ (inject_Z quantity)); [discriminate|].
    destruct (buy_upsert _ _ _ _ _) as [[e|] st1] eqn:Hup; [discriminate|].
    intros _. apply buy_upsert_completes in Hup as (_ & Htx & _).
    simpl in Htx. eexists. simpl. rewrite Htx.
    split; [reflexivity|]. simpl. auto.
  - destruct (String.eqb order_type "SELL"); [|discriminate].
    destruct (portfolio st !! symbol) as [pos|]; [|discriminate].
    destruct (_ <? _)%Z; [discriminate|].
    intros _. eexists. simpl. rewrite sell_update_transactions. simpl.
    split; [reflexivity|]. simpl. auto.
Qed.

(** A purchase on Thursday 5 November 2026 settles on Sunday 8 November. *)
Lemma settlement_date_counts_calendar_days_witness :
  let thursday := {| dt_ordinal := 739925; dt_hour := 9; dt_minute := 0;
                     dt_second := 0 |} in
  accepted (fst (execute_order load_market_data (frozen thursday)
                   "BICC" "BUY" 10 None initialize_session_state)) = true /\
  exists tx,
    transactions (snd (execute_order load_market_data (frozen thursday)
                         "BICC" "BUY" 10 None initialize_session_state))
    = (transactions initialize_session_state ++ [tx])%list /\
    tx_timestamp tx = frozen thursday 0%nat /\
    dt_ordinal (tx_settlement_date tx)
    = dt_ordinal (frozen thursday 1%nat)
      + settlement_days (brvm_rules load_market_data) /\
    dt_hour (tx_settlement_date tx) = dt_hour (frozen thursday 1%nat) /\
    dt_minute (tx_settlement_date tx) = dt_minute (frozen thursday 1%nat) /\
    dt_second (tx_settlement_date tx) = dt_second (frozen thursday 1%nat).
Proof.
  cbv zeta. split; [reflexivity|].
  apply (settlement_date_counts_calendar_days load_market_data
           (frozen {| dt_ordinal := 739925; dt_hour := 9; dt_minute := 0;
                      dt_second := 0 |})
           "BICC" "BUY" 10 None initialize_session_state).
  reflexivity.
Defined.

Example settlement_can_fall_on_sunday :
  strftime_A {| dt_ordinal := 739925; dt_hour := 9; dt_minute := 0; dt_second := 0 |}
  = "Thursday" /\
  strftime_A (add_days {| dt_ordinal := 739925; dt_hour := 9; dt_minute := 0;
                          dt_second := 0 |}
                       (settlement_days brvm_rules_data))
  = "Sunday".
Proof. split; reflexivity. Qed.

(** ** Cash after a purchase *)

(** X20. After an executed BUY the cash balance is not negative, whatever
    it was before the order. *)
Theorem executed_buy_leaves_cash_nonnegative
    (self : manager) (now : nat -> datetime) (symbol : string)
    (quantity : Z) (price : option Q) (st : session_state) :
  accepted (fst (execute_order self now symbol "BUY" quantity price st)) = true ->
  (0 <= cash_balance (snd (execute_order self now symbol "BUY" quantity price st)))%Q.
Proof.
  open_order.
  destruct (market_data self !! symbol) as [data|]; [|discriminate].
  destruct (_ || _); [discriminate|].
  change (String.eqb "BUY" "BUY") with true. cbv iota.
  destruct (Qlt_bool (cash_balance st) _) eqn:Hfunds; [discriminate|].
  destruct (Qlt_bool _ (inject_Z quantity)); [discriminate|].
  destruct (buy_upsert _ _ _ _ _) as [[e|] st1] eqn:Hup; [discriminate|].
  intros _. apply buy_upsert_completes in Hup as (Hcash & _ & _).
  simpl. rewrite Hcash. simpl. apply Qlt_bool_false in Hfunds. lra.
Qed.

Lemma executed_buy_leaves_cash_nonnegative_witness :
  accepted (fst (execute_order load_market_data (frozen wednesday_morning)
                   "PRSC" "BUY" 2830 None initialize_session_state)) = true /\
  (0 <= cash_balance
          (snd (execute_order load_market_data (frozen wednesday_morning)
                  "PRSC" "BUY" 2830 None initialize_session_state)))%Q.
Proof.
  split; [reflexivity|].
  apply (executed_buy_leaves_cash_nonnegative load_market_data
           (frozen wednesday_morning) "PRSC" 2830 None initialize_session_state).
  reflexivity.
Defined.

(** ** Quantities are not validated, continued *)





(** Quantities that are not valid, processed: SELL -5 BICC on the session
    of Scenario A raises the holding to 15 and takes 47500 from the 910000
    in cash (the amount is negative); BUY -3 BICC on the same session
    lowers the holding to 7; BUY -10 BICC raises, leaving a position of
    quantity 0 and the log as it was. *)
Example invalid_quantities_are_processed (now : nat -> datetime) :
  let sell := execute_order load_market_data now "BICC" "SELL" (-5) None
                after_scenario_A in
  let buy := execute_order load_market_data now "BICC" "BUY" (-3) None
               after_scenario_A in
  let bad := execute_order load_market_data now "BICC" "BUY" (-10) None
               after_scenario_A in
  accepted (fst sell) = true /\
  pos_quantity <$> (portfolio (snd sell) !! "BICC") = Some 15 /\
  (cash_balance (snd sell) == 862500 # 1)%Q /\
  accepted (fst buy) = true /\
  pos_quantity <$> (portfolio (snd buy) !! "BICC") = Some 7 /\
  fst bad = Raise ZeroDivisionError /\
  pos_quantity <$> (portfolio (snd bad) !! "BICC") = Some 0 /\
  transactions (snd bad) = transactions after_scenario_A.
Proof. vm_compute. repeat split. Qed.

(** * The methods in Python's arithmetic *)

Lemma py_buy_upsert_completes data symbol quantity order_price st st1 :
  Py.buy_upsert data symbol quantity order_price st = (None, st1) ->
  Py.cash_balance st1 = Py.cash_balance st /\
  Py.transactions st1 = Py.transactions st /\
  match Py.portfolio st !! symbol with
  | Some pos =>
      exists pos',
        Py.portfolio st1 !! symbol = Some pos' /\
        Py.pos_quantity pos' = Py.pos_quantity pos + quantity /\
        Py.pos_sector pos' = Py.pos_sector pos
  | None =>
      Py.portfolio st1 !! symbol
      = Some {| Py.pos_quantity := quantity; Py.pos_avg_price := order_price;
                Py.pos_sector := md_sector data |}
  end.
Proof.
  unfold Py.buy_upsert. destruct (Py.portfolio st !! symbol) as [pos|].
  - cbv zeta. simpl Py.pos_quantity. simpl Py.pos_avg_price. simpl Py.pos_sector.
    destruct (Py.recomputed_avg_price _ _ _ _) as [avg|e]; [|discriminate].
    intros [= <-]. simpl. repeat split.
    eexists. split; [apply lookup_insert_eq|]. simpl. split; reflexivity.
  - intros [= <-]. simpl. repeat split. apply lookup_insert_eq.
Qed.

Lemma py_buy_upsert_raises data symbol quantity order_price st e st1 :
  Py.buy_upsert data symbol quantity order_price st = (Some e, st1) ->
  exists pos,
    Py.portfolio st !! symbol = Some pos /\
    Py.cash_balance st1 = Py.cash_balance st /\
    Py.transactions st1 = Py.transactions st /\
    Py.portfolio st1 !! symbol
    = Some {| Py.pos_quantity := Py.pos_quantity pos + quantity;
              Py.pos_avg_price := Py.pos_avg_price pos;
              Py.pos_sector := Py.pos_sector pos |}.
Proof.
  unfold Py.buy_upsert. destruct (Py.portfolio st !! symbol) as [pos|].
  - cbv zeta. simpl Py.pos_quantity. simpl Py.pos_avg_price. simpl Py.pos_sector.
    destruct (Py.recomputed_avg_price _ _ _ _) as [avg|e']; [discriminate|].
    intros H. inversion H; subst. exists pos. simpl.
    repeat split. apply lookup_insert_eq.
  - discriminate.
Qed.

Lemma py_sell_update_cash symbol quantity pos st :
  Py.cash_balance (Py.sell_update symbol quantity pos st) = Py.cash_balance st.
Proof. unfold Py.sell_update. simpl. destruct (_ =? 0)%Z; reflexivity. Qed.

Lemma py_sell_update_transactions symbol quantity pos st :
  Py.transactions (Py.sell_update symbol quantity pos st) = Py.transactions st.
Proof. unfold Py.sell_update. simpl. destruct (_ =? 0)%Z; reflexivity. Qed.

Lemma py_sell_update_lookup symbol quantity pos st :
  Py.portfolio (Py.sell_update symbol quantity pos st) !! symbol
  = if (Py.pos_quantity pos - quantity =? 0)%Z then None
    else Some {| Py.pos_quantity := Py.pos_quantity pos - quantity;
                 Py.pos_avg_price := Py.pos_avg_price pos;
                 Py.pos_sector := Py.pos_sector pos |}.
Proof.
  unfold Py.sell_update. cbv zeta. simpl Py.pos_quantity.
  destruct (Py.pos_quantity pos - quantity =? 0)%Z; simpl.
  - apply lookup_delete_eq.
  - apply lookup_insert_eq.
Qed.

(** Integer operands are added and subtracted exactly. *)
Lemma py_int_debit (c a k : Z) (total_cost new_cash : Py.number) :
  Py.add (Py.Int a) (Py.Int k) = Py.Val total_cost ->
  Py.sub (Py.Int c) total_cost = Py.Val new_cash ->
  new_cash = Py.Int (c - (a + k)).
Proof.
  simpl. intros [= <-]. simpl. now intros [= <-].
Qed.

Lemma py_int_credit (c a k : Z) (total_received new_cash : Py.number) :
  Py.sub (Py.Int a) (Py.Int k) = Py.Val total_received ->
  Py.add (Py.Int c) total_received = Py.Val new_cash ->
  new_cash = Py.Int (c + (a - k)).
Proof.
  simpl. intros [= <-]. simpl. now intros [= <-].
Qed.

(** Unfolds the float [execute_order] down to the chain of its tests. *)
Ltac open_py_order := unfold Py.execute_order; cbv beta iota zeta.

(** What an executed BUY has computed on its way. *)
Lemma py_buy_accepted_inv
    (self : Py.manager) (now : nat -> datetime) (symbol : string)
    (quantity : Z) (price : option Py.number) (st : Py.session_state) :
  Py.accepted (fst (Py.execute_order self now symbol "BUY" quantity price st)) = true ->
  exists data limits total_amount commission total_cost cap new_cash st1,
    Py.market_data self !! symbol = Some data /\
    let order_price := Py.price_or price (Py.Int (md_price data)) in
    Py.calculate_price_limits self (Py.Int (md_price data)) = Py.Val limits /\
    Py.lt order_price (fst limits) = false /\
    Py.gt order_price (snd limits) = false /\
    Py.mul (Py.Int quantity) order_price = Py.Val total_amount /\
    Py.calculate_commission self total_amount = Py.Val commission /\
    Py.add total_amount commission = Py.Val total_cost /\
    Py.lt (Py.cash_balance st) total_cost = false /\
    Py.mul (Py.Int (md_volume data)) (Py.literal 1 10) = Py.Val cap /\
    Py.gt (Py.Int quantity) cap = false /\
    Py.sub (Py.cash_balance st) total_cost = Py.Val new_cash /\
    Py.buy_upsert data symbol quantity order_price (Py.set_cash_balance new_cash st)
    = (None, st1) /\
    Py.execute_order self now symbol "BUY" quantity price st
    = (Py.Return true (Py.AchatExecute quantity symbol order_price commission),
       Py.append_transaction
         {| Py.tx_timestamp := now 0%nat; Py.tx_symbol := symbol;
            Py.tx_type := "BUY"; Py.tx_quantity := quantity;
            Py.tx_price := order_price; Py.tx_commission := commission;
            Py.tx_total := total_cost;
            Py.tx_settlement_date :=
              add_days (now 1%nat) (Py.settlement_days (Py.brvm_rules self)) |}
         st1).
Proof.
  open_py_order.
  destruct (Py.market_data self !! symbol) as [data|]; [|discriminate].
  destruct (Py.calculate_price_limits _ _) as [[lo hi]|e] eqn:Hlim; [|discriminate].
  destruct (_ || _) eqn:Hband; [discriminate|].
  apply orb_false_iff in Hband as [Hlo Hhi].
  destruct (Py.mul (Py.Int quantity) _) as [total_amount|e] eqn:Hamount;
    [|discriminate].
  destruct (Py.calculate_commission _ _) as [commission|e] eqn:Hcomm;
    [|discriminate].
  change (String.eqb "BUY" "BUY") with true. cbv iota.
  destruct (Py.add total_amount commission) as [total_cost|e] eqn:Hcost;
    [|discriminate].
  destruct (Py.lt (Py.cash_balance st) total_cost) eqn:Hfunds; [discriminate|].
  destruct (Py.mul (Py.Int (md_volume data)) _) as [cap|e] eqn:Hcap;
    [|discriminate].
  destruct (Py.gt (Py.Int quantity) cap) eqn:Hliq; [discriminate|].
  destruct (Py.sub (Py.cash_balance st) total_cost) as [new_cash|e] eqn:Hsub;
    [|discriminate].
  destruct (Py.buy_upsert _ _ _ _ _) as [[e|] st1] eqn:Hup; [discriminate|].
  intros _. exists data, (lo, hi), total_amount, commission, total_cost, cap,
    new_cash, st1.
  cbv zeta. simpl fst. simpl snd. repeat (split; [first [reflexivity | assumption]|]).
  reflexivity.
Qed.

(** What an executed SELL has computed on its way. *)
Lemma py_sell_accepted_inv
    (self : Py.manager) (now : nat -> datetime) (symbol : string)
    (quantity : Z) (price : option Py.number) (st : Py.session_state) :
  Py.accepted (fst (Py.execute_order self now symbol "SELL" quantity price st)) = true ->
  exists data pos total_amount commission total_received new_cash,
    Py.market_data self !! symbol = Some data /\
    Py.portfolio st !! symbol = Some pos /\
    quantity <= Py.pos_quantity pos /\
    let order_price := Py.price_or price (Py.Int (md_price data)) in
    Py.mul (Py.Int quantity) order_price = Py.Val total_amount /\
    Py.calculate_commission self total_amount = Py.Val commission /\
    Py.sub total_amount commission = Py.Val total_received /\
    Py.add (Py.cash_balance st) total_received = Py.Val new_cash /\
    Py.execute_order self now symbol "SELL" quantity price st
    = (Py.Return true (Py.VenteExecutee quantity symbol order_price commission),
       Py.append_transaction
         {| Py.tx_timestamp := now 0%nat; Py.tx_symbol := symbol;
            Py.tx_type := "SELL"; Py.tx_quantity := quantity;
            Py.tx_price := order_price; Py.tx_commission := commission;
            Py.tx_total := total_received;
            Py.tx_settlement_date :=
              add_days (now 1%nat) (Py.settlement_days (Py.brvm_rules self)) |}
         (Py.sell_update symbol quantity pos (Py.set_cash_balance new_cash st))).
Proof.
  open_py_order.
  destruct (Py.market_data self !! symbol) as [data|]; [|discriminate].
  destruct (Py.calculate_price_limits _ _) as [[lo hi]|e]; [|discriminate].
  destruct (_ || _); [discriminate|].
  destruct (Py.mul (Py.Int quantity) _) as [total_amount|e] eqn:Hamount;
    [|discriminate].
  destruct (Py.calculate_commission _ _) as [commission|e] eqn:Hcomm;
    [|discriminate].
  rewrite eqb_SELL_BUY. change (String.eqb "SELL" "SELL") with true. cbv iota.
  destruct (Py.portfolio st !! symbol) as [pos|]; [|discriminate].
  destruct (Py.pos_quantity pos <? quantity)%Z eqn:Hq; [discriminate|].
  destruct (Py.sub total_amount commission) as [total_received|e] eqn:Hrec;
    [|discriminate].
  destruct (Py.add (Py.cash_balance st) total_received) as [new_cash|e] eqn:Hadd;
    [|discriminate].
  intros _. apply Z.ltb_ge in Hq.
  exists data, pos, total_amount, commission, total_received, new_cash.
  cbv zeta. repeat (split; [first [reflexivity | assumption]|]). reflexivity.
Qed.

(** C5, as the code computes it.  An executed BUY of [quantity] at the
    resolved price [order_price] leaves in cash the result of
    [cash_balance - (quantity * order_price + commission)], each operation
    being Python's (a float operation rounds to the nearest double); when
    the balance, the amount and the commission are integers, that is the
    exact difference.  The quantity held of [symbol] goes up by exactly
    [quantity]; when the symbol was absent the position is created with
    that quantity, the order price as average price and the instrument's
    sector. *)
Theorem buy_debits_the_computed_cost
    (self : Py.manager) (now : nat -> datetime) (symbol : string)
    (quantity : Z) (price : option Py.number) (st : Py.session_state) :
  Py.accepted (fst (Py.execute_order self now symbol "BUY" quantity price st)) = true ->
  exists data total_amount commission total_cost,
    Py.market_data self !! symbol = Some data /\
    let order_price := Py.price_or price (Py.Int (md_price data)) in
    let st' := snd (Py.execute_order self now symbol "BUY" quantity price st) in
    Py.mul (Py.Int quantity) order_price = Py.Val total_amount /\
    Py.calculate_commission self total_amount = Py.Val commission /\
    Py.add total_amount commission = Py.Val total_cost /\
    Py.sub (Py.cash_balance st) total_cost = Py.Val (Py.cash_balance st') /\
    (forall c a k : Z,
       Py.cash_balance st = Py.Int c -> total_amount = Py.Int a ->
       commission = Py.Int k ->
       Py.cash_balance st' = Py.Int (c - (a + k))) /\
    match Py.portfolio st !! symbol with
    | Some pos =>
        exists pos', Py.portfolio st' !! symbol = Some pos' /\
                     Py.pos_quantity pos' = Py.pos_quantity pos + quantity
    | None =>
        Py.portfolio st' !! symbol
        = Some {| Py.pos_quantity := quantity; Py.pos_avg_price := order_price;
                  Py.pos_sector := md_sector data |}
    end.
Proof.
  intros Hacc.
  destruct (py_buy_accepted_inv _ _ _ _ _ _ Hacc)
    as (data & limits & total_amount & commission & total_cost & cap & new_cash
        & st1 & Hdata & _ & _ & _ & Hamount & Hcomm & Hcost & _ & _ & _ & Hsub
        & Hup & Hrun).
  exists data, total_amount, commission, total_cost.
  split; [exact Hdata|]. cbv zeta. rewrite Hrun. simpl snd.
  apply py_buy_upsert_completes in Hup as (Hcash & _ & Hpos).
  simpl in Hcash, Hpos. simpl Py.cash_balance. simpl Py.portfolio.
  rewrite Hcash.
  split; [exact Hamount|]. split; [exact Hcomm|]. split; [exact Hcost|].
  split; [exact Hsub|]. split.
  - intros c a k Hc -> ->. rewrite Hc in Hsub.
    exact (py_int_debit c a k total_cost new_cash Hcost Hsub).
  - destruct (Py.portfolio st !! symbol) as [pos|].
    + destruct Hpos as (pos' & Hl & Hq & _). exists pos'. auto.
    + exact Hpos.
Qed.

(** C6, as the code computes it.  An executed SELL of [quantity] at the
    resolved price [order_price] was placed on a held symbol with
    [quantity] at most the quantity held; it leaves in cash the result of
    [cash_balance + (quantity * order_price - commission)], each operation
    being Python's; when the balance, the amount and the commission are
    integers, that is the exact sum.  The position is removed from the
    portfolio if and only if the remaining quantity is exactly 0; a
    position that remains has the reduced quantity and its average price
    unchanged. *)
Theorem sell_credits_the_computed_proceeds
    (self : Py.manager) (now : nat -> datetime) (symbol : string)
    (quantity : Z) (price : option Py.number) (st : Py.session_state) :
  Py.accepted (fst (Py.execute_order self now symbol "SELL" quantity price st)) = true ->
  exists data pos total_amount commission total_received,
    Py.market_data self !! symbol = Some data /\
    Py.portfolio st !! symbol = Some pos /\
    quantity <= Py.pos_quantity pos /\
    let order_price := Py.price_or price (Py.Int (md_price data)) in
    let st' := snd (Py.execute_order self now symbol "SELL" quantity price st) in
    Py.mul (Py.Int quantity) order_price = Py.Val total_amount /\
    Py.calculate_commission self total_amount = Py.Val commission /\
    Py.sub total_amount commission = Py.Val total_received /\
    Py.add (Py.cash_balance st) total_received = Py.Val (Py.cash_balance st') /\
    (forall c a k : Z,
       Py.cash_balance st = Py.Int c -> total_amount = Py.Int a ->
       commission = Py.Int k ->
       Py.cash_balance st' = Py.Int (c + (a - k))) /\
    (Py.portfolio st' !! symbol = None <-> Py.pos_quantity pos - quantity = 0) /\
    (forall pos', Py.portfolio st' !! symbol = Some pos' ->
       Py.pos_quantity pos' = Py.pos_quantity pos - quantity /\
       Py.pos_avg_price pos' = Py.pos_avg_price pos).
Proof.
  intros Hacc.
  destruct (py_sell_accepted_inv _ _ _ _ _ _ Hacc)
    as (data & pos & total_amount & commission & total_received & new_cash
        & Hdata & Hpos & Hq & Hamount & Hcomm & Hrec & Hadd & Hrun).
  exists data, pos, total_amount, commission, total_received.
  split; [exact Hdata|]. split; [exact Hpos|]. split; [exact Hq|].
  cbv zeta. rewrite Hrun. simpl snd. simpl Py.cash_balance. simpl Py.portfolio.
  rewrite py_sell_update_cash, py_sell_update_lookup. simpl Py.cash_balance.
  split; [exact Hamount|]. split; [exact Hcomm|]. split; [exact Hrec|].
  split; [exact Hadd|]. split.
  - intros c a k Hc -> ->. rewrite Hc in Hadd.
    exact (py_int_credit c a k total_received new_cash Hrec Hadd).
  - destruct (Py.pos_quantity pos - quantity =? 0)%Z eqn:Hz.
    + apply Z.eqb_eq in Hz. split; [tauto|]. intros pos'. discriminate.
    + apply Z.eqb_neq in Hz. split.
      * split; [discriminate | contradiction].
      * intros pos' [= <-]. split; reflexivity.
Qed.

(** Scenario A, as an instance of the theorem: every operand is an integer
    and the debit is exactly 90000. *)
Lemma buy_debits_the_computed_cost_witness :
  Py.accepted (fst (Py.execute_order Py.load_market_data (frozen wednesday_morning)
                      "BICC" "BUY" 10 None Py.initialize_session_state)) = true /\
  exists data total_amount commission total_cost,
    Py.market_data Py.load_market_data !! "BICC" = Some data /\
    let order_price := Py.price_or None (Py.Int (md_price data)) in
    let st' := snd (Py.execute_order Py.load_market_data (frozen wednesday_morning)
                      "BICC" "BUY" 10 None Py.initialize_session_state) in
    Py.mul (Py.Int 10) order_price = Py.Val total_amount /\
    Py.calculate_commission Py.load_market_data total_amount = Py.Val commission /\
    Py.add total_amount commission = Py.Val total_cost /\
    Py.sub (Py.cash_balance Py.initialize_session_state) total_cost
    = Py.Val (Py.cash_balance st') /\
    (forall c a k : Z,
       Py.cash_balance Py.initialize_session_state = Py.Int c ->
       total_amount = Py.Int a -> commission = Py.Int k ->
       Py.cash_balance st' = Py.Int (c - (a + k))) /\
    match Py.portfolio Py.initialize_session_state !! "BICC" with
    | Some pos =>
        exists pos', Py.portfolio st' !! "BICC" = Some pos' /\
                     Py.pos_quantity pos' = Py.pos_quantity pos + 10
    | None =>
        Py.portfolio st' !! "BICC"
        = Some {| Py.pos_quantity := 10; Py.pos_avg_price := order_price;
                  Py.pos_sector := md_sector data |}
    end.
Proof.
  split.
  - vm_compute. reflexivity.
  - apply (buy_debits_the_computed_cost Py.load_market_data
             (frozen wednesday_morning) "BICC" 10 None Py.initialize_session_state).
    vm_compute. reflexivity.
Defined.

(** Scenario A in Python's numbers: total cost 90000, cash 910000, a new
    position of 10 shares at 8500, all of them integers. *)
Example py_scenario_A (now : nat -> datetime) :
  let r := Py.execute_order Py.load_market_data now "BICC" "BUY" 10 None
             Py.initialize_session_state in
  fst r = Py.Return true (Py.AchatExecute 10 "BICC" (Py.Int 8500) (Py.Int 5000)) /\
  Py.cash_balance (snd r) = Py.Int 910000 /\
  Py.portfolio (snd r) !! "BICC"
  = Some (Py.Position 10 (Py.Int 8500) "Construction").
Proof. vm_compute. repeat split; reflexivity. Qed.

(** BUY 199 BOAB at 4200.0, the price the order form proposes, on a fresh
    session: the commission is the double nearest to 5014.8, the total cost
    the double nearest to 840814.8, and the cash left is the double
    159185.19999999995.  The balance has not gone down by exactly the
    amount plus the commission, whether the commission is taken as the
    double the code computed or as the decimal 5014.8. *)
Lemma buy_debit_is_rounded :
  let r := Py.execute_order Py.load_market_data (frozen wednesday_morning)
             "BOAB" "BUY" 199 (Some (Py.literal 4200 1))
             Py.initialize_session_state in
  Py.accepted (fst r) = true /\
  exists commission,
    Py.calculate_commission Py.load_market_data (Py.literal 835800 1)
    = Py.Val commission /\
    (Py.to_Q (Py.cash_balance (snd r)) == 5469561824057752 # 34359738368)%Q /\
    ~ (Py.to_Q (Py.cash_balance (snd r))
       == (1000000 # 1) - (inject_Z 199 * (4200 # 1) + Py.to_Q commission))%Q /\
    ~ (Py.to_Q (Py.cash_balance (snd r))
       == (1000000 # 1) - (inject_Z 199 * (4200 # 1) + (50148 # 10)))%Q.
Proof.
  vm_compute. split; [reflexivity|]. eexists. split; [reflexivity|].
  split; [reflexivity|]. split; discriminate.
Qed.

(** The session after Scenario A, in Python's numbers. *)
Lemma sell_credits_the_computed_proceeds_witness :
  let st0 := snd (Py.execute_order Py.load_market_data (frozen wednesday_morning)
                    "BICC" "BUY" 10 None Py.initialize_session_state) in
  Py.accepted (fst (Py.execute_order Py.load_market_data (frozen wednesday_morning)
                      "BICC" "SELL" 10 None st0)) = true /\
  exists data pos total_amount commission total_received,
    Py.market_data Py.load_market_data !! "BICC" = Some data /\
    Py.portfolio st0 !! "BICC" = Some pos /\
    10 <= Py.pos_quantity pos /\
    let order_price := Py.price_or None (Py.Int (md_price data)) in
    let st' := snd (Py.execute_order Py.load_market_data (frozen wednesday_morning)
                      "BICC" "SELL" 10 None st0) in
    Py.mul (Py.Int 10) order_price = Py.Val total_amount /\
    Py.calculate_commission Py.load_market_data total_amount = Py.Val commission /\
    Py.sub total_amount commission = Py.Val total_received /\
    Py.add (Py.cash_balance st0) total_received = Py.Val (Py.cash_balance st') /\
    (forall c a k : Z,
       Py.cash_balance st0 = Py.Int c -> total_amount = Py.Int a ->
       commission = Py.Int k ->
       Py.cash_balance st' = Py.Int (c + (a - k))) /\
    (Py.portfolio st' !! "BICC" = None <-> Py.pos_quantity pos - 10 = 0) /\
    (forall pos', Py.portfolio st' !! "BICC" = Some pos' ->
       Py.pos_quantity pos' = Py.pos_quantity pos - 10 /\
       Py.pos_avg_price pos' = Py.pos_avg_price pos).
Proof.
  cbv zeta. split.
  - vm_compute. reflexivity.
  - apply (sell_credits_the_computed_proceeds Py.load_market_data
             (frozen wednesday_morning) "BICC" 10 None
             (snd (Py.execute_order Py.load_market_data (frozen wednesday_morning)
                     "BICC" "BUY" 10 None Py.initialize_session_state))).
    vm_compute. reflexivity.
Defined.

(** After Scenario A (10 BICC held, 910000 in cash), SELL 1 BICC at
    8500.1: the proceeds are the double 3500.1000000000004 and the cash
    becomes the double 913500.1, which is not 910000 plus the amount minus
    the commission. *)
Lemma sell_credit_is_rounded :
  let st0 := snd (Py.execute_order Py.load_market_data (frozen wednesday_morning)
                    "BICC" "BUY" 10 None Py.initialize_session_state) in
  let r := Py.execute_order Py.load_market_data (frozen wednesday_morning)
             "BICC" "SELL" 1 (Some (Py.literal 85001 10)) st0 in
  Py.cash_balance st0 = Py.Int 910000 /\
  Py.accepted (fst r) = true /\
  Py.calculate_commission Py.load_market_data (Py.literal 85001 10)
  = Py.Val (Py.Int 5000) /\
  ~ (Py.to_Q (Py.cash_balance (snd r))
     == (910000 # 1)
        + (inject_Z 1 * Py.to_Q (Py.literal 85001 10) - (5000 # 1)))%Q /\
  ~ (Py.to_Q (Py.cash_balance (snd r))
     == (910000 # 1) + (inject_Z 1 * (85001 # 10) - (5000 # 1)))%Q.
Proof.
  vm_compute. repeat split; discriminate.
Qed.

(** C8, as the code has it.  In the BUY branch the funds test comes before
    the liquidity test: a BUY on a listed symbol at a price inside the band
    whose total cost, as the code computes it, exceeds the cash balance is
    rejected for insufficient funds, with the state untouched, also when
    its quantity exceeds one tenth of the instrument's volume. *)
Theorem funds_test_precedes_liquidity_test
    (self : Py.manager) (now : nat -> datetime) (symbol : string)
    (quantity : Z) (price : option Py.number) (st : Py.session_state)
    (data : instrument) (limits : Py.number * Py.number)
    (total_amount commission total_cost cap : Py.number) :
  Py.market_data self !! symbol = Some data ->
  let order_price := Py.price_or price (Py.Int (md_price data)) in
  Py.calculate_price_limits self (Py.Int (md_price data)) = Py.Val limits ->
  Py.lt order_price (fst limits) = false ->
  Py.gt order_price (snd limits) = false ->
  Py.mul (Py.Int quantity) order_price = Py.Val total_amount ->
  Py.calculate_commission self total_amount = Py.Val commission ->
  Py.add total_amount commission = Py.Val total_cost ->
  Py.mul (Py.Int (md_volume data)) (Py.literal 1 10) = Py.Val cap ->
  Py.gt (Py.Int quantity) cap = true ->
  Py.lt (Py.cash_balance st) total_cost = true ->
  Py.execute_order self now symbol "BUY" quantity price st
  = (Py.Return false Py.LiquiditesInsuffisantes, st).
Proof.
  intros Hdata order_price Hlim Hlo Hhi Hamount Hcomm Hcost _ _ Hfunds.
  open_py_order. rewrite Hdata, Hlim. destruct limits as [lo hi].
  simpl in Hlo, Hhi. fold order_price. rewrite Hlo, Hhi. simpl orb. cbv iota.
  rewrite Hamount, Hcomm.
  change (String.eqb "BUY" "BUY") with true. cbv iota.
  rewrite Hcost, Hfunds. reflexivity.
Qed.

(** BUY 2000 BICC on a fresh session: the cap is 1500 shares and the cost
    17102000 exceeds the 1000000 in cash. *)
Lemma funds_test_precedes_liquidity_test_witness :
  let data := Instrument 8500 (25 # 10) 15000 "Construction" in
  let limits := (Py.literal 78625 10, Py.literal 91375 10) in
  Py.market_data Py.load_market_data !! "BICC" = Some data /\
  let order_price := Py.price_or None (Py.Int (md_price data)) in
  Py.calculate_price_limits Py.load_market_data (Py.Int (md_price data))
  = Py.Val limits /\
  Py.lt order_price (fst limits) = false /\
  Py.gt order_price (snd limits) = false /\
  Py.mul (Py.Int 2000) order_price = Py.Val (Py.Int 17000000) /\
  Py.calculate_commission Py.load_market_data (Py.Int 17000000)
  = Py.Val (Py.literal 102000 1) /\
  Py.add (Py.Int 17000000) (Py.literal 102000 1) = Py.Val (Py.literal 17102000 1) /\
  Py.mul (Py.Int (md_volume data)) (Py.literal 1 10) = Py.Val (Py.literal 1500 1) /\
  Py.gt (Py.Int 2000) (Py.literal 1500 1) = true /\
  Py.lt (Py.cash_balance Py.initialize_session_state) (Py.literal 17102000 1) = true /\
  Py.execute_order Py.load_market_data (frozen wednesday_morning)
    "BICC" "BUY" 2000 None Py.initialize_session_state
  = (Py.Return false Py.LiquiditesInsuffisantes, Py.initialize_session_state).
Proof.
  cbv zeta.
  repeat (split; [vm_compute; reflexivity|]).
  apply (funds_test_precedes_liquidity_test Py.load_market_data
           (frozen wednesday_morning) "BICC" 2000 None Py.initialize_session_state
           (Instrument 8500 (25 # 10) 15000 "Construction")
           (Py.literal 78625 10, Py.literal 91375 10)
           (Py.Int 17000000) (Py.literal 102000 1) (Py.literal 17102000 1)
           (Py.literal 1500 1)); vm_compute; reflexivity.
Defined.

(** C9, as the code has it.  An executed order appends exactly one
    transaction, for the order's symbol, side, quantity, resolved price and
    commission.  Its ['total'] is, for a BUY, the total cost
    [quantity * price + commission] as the code computed it, recorded as
    such and not negated, and for a SELL the net proceeds
    [quantity * price - commission] as the code computed them. *)
Theorem executed_order_records_computed_total
    (self : Py.manager) (now : nat -> datetime) (symbol order_type : string)
    (quantity : Z) (price : option Py.number) (st : Py.session_state) :
  Py.accepted (fst (Py.execute_order self now symbol order_type quantity price st))
  = true ->
  exists data tx total_amount commission,
    Py.market_data self !! symbol = Some data /\
    Py.transactions
      (snd (Py.execute_order self now symbol order_type quantity price st))
    = (Py.transactions st ++ [tx])%list /\
    let order_price := Py.price_or price (Py.Int (md_price data)) in
    Py.mul (Py.Int quantity) order_price = Py.Val total_amount /\
    Py.calculate_commission self total_amount = Py.Val commission /\
    Py.tx_symbol tx = symbol /\ Py.tx_type tx = order_type /\
    Py.tx_quantity tx = quantity /\ Py.tx_price tx = order_price /\
    Py.tx_commission tx = commission /\
    (order_type = "BUY" /\
     Py.add total_amount commission = Py.Val (Py.tx_total tx) \/
     order_type = "SELL" /\
     Py.sub total_amount commission = Py.Val (Py.tx_total tx)).
Proof.
  intros Hacc.
  assert (Hside : order_type = "BUY" \/ order_type = "SELL").
  { revert Hacc. open_py_order.
    destruct (Py.market_data self !! symbol) as [data|]; [|discriminate].
    destruct (Py.calculate_price_limits _ _) as [[lo hi]|e]; [|discriminate].
    destruct (_ || _); [discriminate|].
    destruct (Py.mul (Py.Int quantity) _) as [total_amount|e]; [|discriminate].
    destruct (Py.calculate_commission _ _) as [commission|e]; [|discriminate].
    destruct (String.eqb order_type "BUY") eqn:Hb.
    - intros _. left. now apply String.eqb_eq.
    - destruct (String.eqb order_type "SELL") eqn:Hs; [|discriminate].
      intros _. right. now apply String.eqb_eq. }
  destruct Hside as [-> | ->].
  - destruct (py_buy_accepted_inv _ _ _ _ _ _ Hacc)
      as (data & limits & total_amount & commission & total_cost & cap
          & new_cash & st1 & Hdata & _ & _ & _ & Hamount & Hcomm & Hcost & _
          & _ & _ & _ & Hup & Hrun).
    apply py_buy_upsert_completes in Hup as (_ & Htx & _). simpl in Htx.
    exists data. eexists. exists total_amount, commission.
    split; [exact Hdata|]. rewrite Hrun. simpl. rewrite Htx.
    split; [reflexivity|]. simpl. tauto.
  - destruct (py_sell_accepted_inv _ _ _ _ _ _ Hacc)
      as (data & pos & total_amount & commission & total_received & new_cash
          & Hdata & _ & _ & Hamount & Hcomm & Hrec & _ & Hrun).
    exists data. eexists. exists total_amount, commission.
    split; [exact Hdata|]. rewrite Hrun. simpl.
    rewrite py_sell_update_transactions. simpl.
    split; [reflexivity|]. simpl. tauto.
Qed.

(** Scenario A, as an instance of the theorem. *)
Lemma executed_order_records_computed_total_witness :
  Py.accepted (fst (Py.execute_order Py.load_market_data (frozen wednesday_morning)
                      "BICC" "BUY" 10 None Py.initialize_session_state)) = true /\
  exists data tx total_amount commission,
    Py.market_data Py.load_market_data !! "BICC" = Some data /\
    Py.transactions
      (snd (Py.execute_order Py.load_market_data (frozen wednesday_morning)
              "BICC" "BUY" 10 None Py.initialize_session_state))
    = (Py.transactions Py.initialize_session_state ++ [tx])%list /\
    let order_price := Py.price_or None (Py.Int (md_price data)) in
    Py.mul (Py.Int 10) order_price = Py.Val total_amount /\
    Py.calculate_commission Py.load_market_data total_amount = Py.Val commission /\
    Py.tx_symbol tx = "BICC" /\ Py.tx_type tx = "BUY" /\
    Py.tx_quantity tx = 10 /\ Py.tx_price tx = order_price /\
    Py.tx_commission tx = commission /\
    ("BUY" = "BUY" /\
     Py.add total_amount commission = Py.Val (Py.tx_total tx) \/
     "BUY" = "SELL" /\
     Py.sub total_amount commission = Py.Val (Py.tx_total tx)).
Proof.
  split.
  - vm_compute. reflexivity.
  - apply (executed_order_records_computed_total Py.load_market_data
             (frozen wednesday_morning) "BICC" "BUY" 10 None
             Py.initialize_session_state).
    vm_compute. reflexivity.
Defined.

(** ** The raised exception and the log, in Python's arithmetic *)

Lemma py_truediv_by_zero (x : Py.number) :
  Py.truediv x (Py.Int 0) = Py.Exn Py.ZeroDivisionError.
Proof.
  destruct x as [a|f]; [reflexivity|].
  unfold Py.truediv. simpl Py.as_float. reflexivity.
Qed.

(** With a new quantity of 0 the average-price statement cannot complete:
    its division raises, unless a product overflowed before it. *)
Lemma py_recomputed_avg_price_zero
    (avg_price : Py.number) (quantity : Z) (order_price total_amount : Py.number)
    (f : spec_float) :
  Py.mul (Py.Int quantity) order_price = Py.Val total_amount ->
  Py.as_float total_amount = Py.Val f ->
  Py.recomputed_avg_price avg_price 0 quantity order_price
  = Py.Exn Py.ZeroDivisionError.
Proof.
  intros Hamount Hf. unfold Py.recomputed_avg_price. rewrite Hamount.
  destruct avg_price as [a0|f0].
  - simpl Py.mul. rewrite Z.mul_0_r.
    destruct total_amount as [a|fa].
    + simpl. reflexivity.
    + unfold Py.sub, Py.lift2. simpl Py.as_float.
      change (Py.to_float 0) with (Py.Val (S754_zero false)). cbv iota.
      unfold Py.add, Py.lift2. simpl Py.as_float.
      apply py_truediv_by_zero.
  - unfold Py.mul at 1. unfold Py.lift2 at 1. simpl Py.as_float.
    change (Py.to_float 0) with (Py.Val (S754_zero false)). cbv iota.
    unfold Py.sub, Py.lift2. simpl Py.as_float at 1. rewrite Hf.
    unfold Py.add, Py.lift2. simpl Py.as_float at 1. rewrite Hf.
    apply py_truediv_by_zero.
Qed.

(** X10. A BUY that passes every test on a held symbol and whose quantity
    brings the held quantity to zero does not complete: the division of the
    average-price statement raises [ZeroDivisionError].  At that point the
    computed cost has already been taken from the cash balance and the
    position set to quantity 0; no transaction is logged. *)
Theorem buy_to_zero_raises_after_the_debit
    (self : Py.manager) (now : nat -> datetime) (symbol : string)
    (quantity : Z) (price : option Py.number) (st : Py.session_state)
    (data : instrument) (limits : Py.number * Py.number)
    (total_amount commission total_cost cap new_cash : Py.number)
    (f : spec_float) (pos : Py.position) :
  Py.market_data self !! symbol = Some data ->
  let order_price := Py.price_or price (Py.Int (md_price data)) in
  Py.calculate_price_limits self (Py.Int (md_price data)) = Py.Val limits ->
  Py.lt order_price (fst limits) = false ->
  Py.gt order_price (snd limits) = false ->
  Py.mul (Py.Int quantity) order_price = Py.Val total_amount ->
  Py.as_float total_amount = Py.Val f ->
  Py.calculate_commission self total_amount = Py.Val commission ->
  Py.add total_amount commission = Py.Val total_cost ->
  Py.lt (Py.cash_balance st) total_cost = false ->
  Py.mul (Py.Int (md_volume data)) (Py.literal 1 10) = Py.Val cap ->
  Py.gt (Py.Int quantity) cap = false ->
  Py.sub (Py.cash_balance st) total_cost = Py.Val new_cash ->
  Py.portfolio st !! symbol = Some pos ->
  Py.pos_quantity pos + quantity = 0 ->
  let r := Py.execute_order self now symbol "BUY" quantity price st in
  fst r = Py.Raise Py.ZeroDivisionError /\
  Py.cash_balance (snd r) = new_cash /\
  Py.transactions (snd r) = Py.transactions st /\
  Py.portfolio (snd r) !! symbol
  = Some {| Py.pos_quantity := 0; Py.pos_avg_price := Py.pos_avg_price pos;
            Py.pos_sector := Py.pos_sector pos |}.
Proof.
  intros Hdata order_price Hlim Hlo Hhi Hamount Hf Hcomm Hcost Hfunds Hcap Hliq
    Hsub Hpos Hz r.
  assert (Hrun : r = (Py.Raise Py.ZeroDivisionError,
                      Py.set_portfolio
                        (<[symbol := {| Py.pos_quantity := 0;
                                        Py.pos_avg_price := Py.pos_avg_price pos;
                                        Py.pos_sector := Py.pos_sector pos |}]>
                           (Py.portfolio st))
                        (Py.set_cash_balance new_cash st))).
  { subst r. open_py_order. rewrite Hdata, Hlim. destruct limits as [lo hi].
    simpl in Hlo, Hhi. fold order_price. rewrite Hlo, Hhi. simpl orb. cbv iota.
    rewrite Hamount, Hcomm.
    change (String.eqb "BUY" "BUY") with true. cbv iota.
    rewrite Hcost, Hfunds, Hcap, Hliq, Hsub.
    unfold Py.buy_upsert. simpl Py.portfolio. rewrite Hpos. cbv zeta.
    simpl Py.pos_quantity. simpl Py.pos_avg_price. simpl Py.pos_sector.
    rewrite Hz.
    rewrite (py_recomputed_avg_price_zero _ _ _ _ f Hamount Hf). reflexivity. }
  rewrite Hrun. simpl. repeat split. apply lookup_insert_eq.
Qed.

(** BUY 0 BICC, twice, on a fresh session: the first stores a position of
    quantity 0, the second raises with 990000 left and one transaction in
    the log. *)
Lemma buy_to_zero_raises_after_the_debit_witness :
  let st0 := snd (Py.execute_order Py.load_market_data (frozen wednesday_morning)
                    "BICC" "BUY" 0 None Py.initialize_session_state) in
  let data := Instrument 8500 (25 # 10) 15000 "Construction" in
  let limits := (Py.literal 78625 10, Py.literal 91375 10) in
  let pos := Py.Position 0 (Py.Int 8500) "Construction" in
  Py.market_data Py.load_market_data !! "BICC" = Some data /\
  let order_price := Py.price_or None (Py.Int (md_price data)) in
  Py.calculate_price_limits Py.load_market_data (Py.Int (md_price data))
  = Py.Val limits /\
  Py.lt order_price (fst limits) = false /\
  Py.gt order_price (snd limits) = false /\
  Py.mul (Py.Int 0) order_price = Py.Val (Py.Int 0) /\
  Py.as_float (Py.Int 0) = Py.Val (S754_zero false) /\
  Py.calculate_commission Py.load_market_data (Py.Int 0) = Py.Val (Py.Int 5000) /\
  Py.add (Py.Int 0) (Py.Int 5000) = Py.Val (Py.Int 5000) /\
  Py.lt (Py.cash_balance st0) (Py.Int 5000) = false /\
  Py.mul (Py.Int (md_volume data)) (Py.literal 1 10) = Py.Val (Py.literal 1500 1) /\
  Py.gt (Py.Int 0) (Py.literal 1500 1) = false /\
  Py.sub (Py.cash_balance st0) (Py.Int 5000) = Py.Val (Py.Int 990000) /\
  Py.portfolio st0 !! "BICC" = Some pos /\
  Py.pos_quantity pos + 0 = 0 /\
  let r := Py.execute_order Py.load_market_data (frozen wednesday_morning)
             "BICC" "BUY" 0 None st0 in
  fst r = Py.Raise Py.ZeroDivisionError /\
  Py.cash_balance (snd r) = Py.Int 990000 /\
  Py.transactions (snd r) = Py.transactions st0 /\
  Py.portfolio (snd r) !! "BICC"
  = Some {| Py.pos_quantity := 0; Py.pos_avg_price := Py.pos_avg_price pos;
            Py.pos_sector := Py.pos_sector pos |}.
Proof.
  cbv zeta.
  repeat (split; [vm_compute; reflexivity|]).
  apply (buy_to_zero_raises_after_the_debit Py.load_market_data
           (frozen wednesday_morning) "BICC" 0 None
           (snd (Py.execute_order Py.load_market_data (frozen wednesday_morning)
                   "BICC" "BUY" 0 None Py.initialize_session_state))
           (Instrument 8500 (25 # 10) 15000 "Construction")
           (Py.literal 78625 10, Py.literal 91375 10)
           (Py.Int 0) (Py.Int 5000) (Py.Int 5000) (Py.literal 1500 1)
           (Py.Int 990000) (S754_zero false)
           (Py.Position 0 (Py.Int 8500) "Construction")); vm_compute; reflexivity.
Defined.

(** X11. The transaction appended by an executed order accounts for the
    movement of cash: the new balance is the old one minus the recorded
    ['total'] for a BUY, plus the recorded ['total'] for a SELL, the
    subtraction or addition being Python's. *)
Theorem recorded_total_is_what_moved_the_cash
    (self : Py.manager) (now : nat -> datetime) (symbol order_type : string)
    (quantity : Z) (price : option Py.number) (st : Py.session_state) :
  Py.accepted (fst (Py.execute_order self now symbol order_type quantity price st))
  = true ->
  let st' := snd (Py.execute_order self now symbol order_type quantity price st) in
  exists tx,
    Py.transactions st' = (Py.transactions st ++ [tx])%list /\
    (Py.tx_type tx = "BUY" /\
     Py.sub (Py.cash_balance st) (Py.tx_total tx) = Py.Val (Py.cash_balance st') \/
     Py.tx_type tx = "SELL" /\
     Py.add (Py.cash_balance st) (Py.tx_total tx) = Py.Val (Py.cash_balance st')).
Proof.
  intros Hacc.
  assert (Hside : order_type = "BUY" \/ order_type = "SELL").
  { revert Hacc. open_py_order.
    destruct (Py.market_data self !! symbol) as [data|]; [|discriminate].
    destruct (Py.calculate_price_limits _ _) as [[lo hi]|e]; [|discriminate].
    destruct (_ || _); [discriminate|].
    destruct (Py.mul (Py.Int quantity) _) as [total_amount|e]; [|discriminate].
    destruct (Py.calculate_commission _ _) as [commission|e]; [|discriminate].
    destruct (String.eqb order_type "BUY") eqn:Hb.
    - intros _. left. now apply String.eqb_eq.
    - destruct (String.eqb order_type "SELL") eqn:Hs; [|discriminate].
      intros _. right. now apply String.eqb_eq. }
  destruct Hside as [-> | ->]; cbv zeta.
  - destruct (py_buy_accepted_inv _ _ _ _ _ _ Hacc)
      as (data & limits & total_amount & commission & total_cost & cap
          & new_cash & st1 & _ & _ & _ & _ & _ & _ & _ & _ & _ & _ & Hsub
          & Hup & Hrun).
    apply py_buy_upsert_completes in Hup as (Hcash & Htx & _).
    simpl in Hcash, Htx. rewrite Hrun. eexists. simpl. rewrite Htx, Hcash.
    split; [reflexivity|]. left. simpl. split; [reflexivity | exact Hsub].
  - destruct (py_sell_accepted_inv _ _ _ _ _ _ Hacc)
      as (data & pos & total_amount & commission & total_received & new_cash
          & _ & _ & _ & _ & _ & _ & Hadd & Hrun).
    rewrite Hrun. eexists. simpl.
    rewrite py_sell_update_transactions, py_sell_update_cash. simpl.
    split; [reflexivity|]. right. split; [reflexivity | exact Hadd].
Qed.

(** BUY 3 BICC at 8500.1 on a fresh session: the recorded total is the
    double 30500.300000000003. *)
Lemma recorded_total_is_what_moved_the_cash_witness :
  Py.accepted (fst (Py.execute_order Py.load_market_data (frozen wednesday_morning)
                      "BICC" "BUY" 3 (Some (Py.literal 85001 10))
                      Py.initialize_session_state)) = true /\
  let st' := snd (Py.execute_order Py.load_market_data (frozen wednesday_morning)
                    "BICC" "BUY" 3 (Some (Py.literal 85001 10))
                    Py.initialize_session_state) in
  exists tx,
    Py.transactions st' = (Py.transactions Py.initialize_session_state ++ [tx])%list /\
    (Py.tx_type tx = "BUY" /\
     Py.sub (Py.cash_balance Py.initialize_session_state) (Py.tx_total tx)
     = Py.Val (Py.cash_balance st') \/
     Py.tx_type tx = "SELL" /\
     Py.add (Py.cash_balance Py.initialize_session_state) (Py.tx_total tx)
     = Py.Val (Py.cash_balance st')).
Proof.
  split.
  - vm_compute. reflexivity.
  - apply (recorded_total_is_what_moved_the_cash Py.load_market_data
             (frozen wednesday_morning) "BICC" "BUY" 3 (Some (Py.literal 85001 10))
             Py.initialize_session_state).
    vm_compute. reflexivity.
Defined.
